(** * sunstorm.py: the restore and boot pipelines and the ramdisk synthesis

    A shallow embedding of [src/sunstorm.py].  The script is a sequence of
    host actions (prints, file operations, external commands); the embedding
    threads a log of those actions through a small outcome monad and takes
    everything the host answers (command exit codes, directory walks, stat
    results, the parsed manifest, the key service) from an explicit [Host]
    record. *)

From Stdlib Require Import String Ascii List ZArith NArith Bool Lia.
Import ListNotations.
Open Scope string_scope.

(** ** Python strings *)

Module Py.

Definition chars : string -> list ascii := list_ascii_of_string.
Definition str : list ascii -> string := string_of_list_ascii.

(** The double quote character, as a one-character string. *)
Definition dq : string := String (ascii_of_nat 34) EmptyString.

(** [s.startswith(p)] *)
Fixpoint startswith (s p : string) {struct p} : bool :=
  match p, s with
  | EmptyString, _ => true
  | String c p', String d s' => Ascii.eqb c d && startswith s' p'
  | String _ _, EmptyString => false
  end.

Fixpoint prefix_l (p l : list ascii) {struct p} : bool :=
  match p, l with
  | [], _ => true
  | c :: p', d :: l' => Ascii.eqb c d && prefix_l p' l'
  | _ :: _, [] => false
  end.

(** [s.endswith(p)] *)
Definition endswith (s p : string) : bool :=
  prefix_l (rev (chars p)) (rev (chars s)).

(** [s.endswith((p1, p2, ...))] *)
Definition endswith_any (s : string) (ps : list string) : bool :=
  existsb (endswith s) ps.

(** [s.lower()] on ASCII: the letters [A-Z] move to [a-z], every other
    character stays. *)
Definition is_upper (c : ascii) : bool :=
  let n := nat_of_ascii c in (65 <=? n)%nat && (n <=? 90)%nat.

Definition lower_ascii (c : ascii) : ascii :=
  if is_upper c then ascii_of_nat (nat_of_ascii c + 32) else c.

Fixpoint lower (s : string) : string :=
  match s with
  | EmptyString => EmptyString
  | String c r => String (lower_ascii c) (lower r)
  end.

(** [sep.join(parts)] *)
Fixpoint join (sep : string) (parts : list string) : string :=
  match parts with
  | [] => EmptyString
  | [p] => p
  | p :: rest => p ++ sep ++ join sep rest
  end.

(** [s[-k:]] : the last [k] characters, the whole string when it is shorter. *)
Definition last_chars (k : nat) (s : string) : string :=
  let l := chars s in str (skipn (List.length l - k) l).

(** [oct(n)] for a non-negative integer. *)
Definition digit_char (d : N) : ascii := ascii_of_N (48 + d).

Fixpoint oct_digits (fuel : nat) (n : N) : list ascii :=
  match fuel with
  | O => []
  | S f => digit_char (n mod 8)
           :: (if (n / 8 =? 0)%N then [] else oct_digits f (n / 8))
  end.

Definition oct (n : N) : string :=
  "0o" ++ str (rev (oct_digits (S (N.to_nat (N.log2 n))) n)).

(** Reading an octal literal, used only to write the mode constants the way
    the source and [stat.h] write them. *)
Definition of_oct (s : string) : N :=
  fold_left (fun acc c => (8 * acc + (N_of_ascii c - 48))%N) (chars s) 0%N.

(** [int(s)] in base ten, on the strings the script passes to it (three
    characters cut from an [oct] rendering: digits and the letter [o]).
    [None] stands for the [ValueError] Python raises on anything else. *)
Definition digit_val (c : ascii) : option Z :=
  let n := nat_of_ascii c in
  if (48 <=? n)%nat && (n <=? 57)%nat then Some (Z.of_nat n - 48)%Z else None.

Fixpoint int_l (acc : Z) (l : list ascii) : option Z :=
  match l with
  | [] => Some acc
  | c :: r => match digit_val c with
              | Some d => int_l (10 * acc + d) r
              | None => None
              end
  end.

Definition int_ (s : string) : option Z :=
  match chars s with
  | [] => None
  | l => int_l 0 l
  end.

(** [repr] of a string, as [print] and f-strings render the entries of an
    argument vector.  A character of the model is a code point below 256.
    The string is wrapped in apostrophes, or in double quotes when it holds
    an apostrophe and no double quote; the wrapping quote and the backslash
    are escaped with a backslash; tab, line feed and carriage return are
    written [\t], [\n], [\r]; every other character that is not printable
    (below 32, 127 to 160, and 173) is written [\xhh]. *)
Definition sq : ascii := "'"%char.
Definition dq_char : ascii := ascii_of_nat 34.
Definition backslash : ascii := ascii_of_nat 92.

Definition hex_digit (n : nat) : ascii :=
  if (n <? 10)%nat then ascii_of_nat (48 + n) else ascii_of_nat (87 + n).

Definition isprintable (n : nat) : bool :=
  ((32 <=? n)%nat && (n <? 127)%nat) || ((161 <=? n)%nat && negb (n =? 173)%nat).

Definition repr_char (quote c : ascii) : string :=
  let n := nat_of_ascii c in
  if Ascii.eqb c quote || Ascii.eqb c backslash
  then String backslash (String c EmptyString)
  else if (n =? 9)%nat then String backslash "t"
  else if (n =? 10)%nat then String backslash "n"
  else if (n =? 13)%nat then String backslash "r"
  else if isprintable n then String c EmptyString
  else String backslash
         (String "x" (String (hex_digit (n / 16))
                        (String (hex_digit (n mod 16)) EmptyString))).

Definition contains_char (c : ascii) (s : string) : bool :=
  existsb (Ascii.eqb c) (chars s).

Definition repr_str (s : string) : string :=
  let quote :=
    if contains_char sq s && negb (contains_char dq_char s) then dq_char else sq in
  String quote
    (String.concat EmptyString (map (repr_char quote) (chars s))
     ++ String quote EmptyString).

(** [repr] of a list of strings. *)
Definition repr_list (l : list string) : string :=
  "[" ++ join ", " (map repr_str l) ++ "]".

(** Truthiness of a string: empty is false. *)
Definition truthy (s : string) : bool :=
  match s with EmptyString => false | _ => true end.

End Py.

(** ** posixpath *)

Module Path.
Import Py.

Definition sep : ascii := "/"%char.
Definition is_sep (c : ascii) : bool := Ascii.eqb c sep.

(** [p[:i], p[i:]] with [i = p.rfind('/') + 1]. *)
Fixpoint rsplit (l : list ascii) : list ascii * list ascii :=
  match l with
  | [] => ([], [])
  | c :: r =>
      let (h, t) := rsplit r in
      match h with
      | [] => if is_sep c then ([c], t) else ([], c :: t)
      | _ :: _ => (c :: h, t)
      end
  end.

(** [s.rstrip('/')] *)
Fixpoint lstrip_sep (l : list ascii) : list ascii :=
  match l with
  | c :: r => if is_sep c then lstrip_sep r else l
  | [] => []
  end.

Definition rstrip_sep (l : list ascii) : list ascii :=
  rev (lstrip_sep (rev l)).

(** [os.path.basename] *)
Definition basename (p : string) : string := str (snd (rsplit (chars p))).

(** [os.path.dirname]: the head up to the last separator, with trailing
    separators removed unless the head is made of separators only. *)
Definition dirname (p : string) : string :=
  let head := fst (rsplit (chars p)) in
  match head with
  | [] => EmptyString
  | _ => if forallb is_sep head then str head else str (rstrip_sep head)
  end.

(** [s.split('/')] *)
Fixpoint split (l : list ascii) : list (list ascii) :=
  match l with
  | [] => [[]]
  | c :: r =>
      if is_sep c then [] :: split r
      else match split r with
           | p :: ps => (c :: p) :: ps
           | [] => [[c]]
           end
  end.

Definition split_str (p : string) : list string := map str (split (chars p)).

(** The component loop of [os.path.normpath]; [new_comps] is kept reversed. *)
Fixpoint norm_comps (initial_slashes : bool) (comps new_rev : list string)
  : list string :=
  match comps with
  | [] => rev new_rev
  | comp :: rest =>
      if String.eqb comp EmptyString || String.eqb comp "." then
        norm_comps initial_slashes rest new_rev
      else if negb (String.eqb comp "..")
              || (negb initial_slashes && match new_rev with [] => true | _ => false end)
              || match new_rev with l :: _ => String.eqb l ".." | [] => false end
      then norm_comps initial_slashes rest (comp :: new_rev)
      else match new_rev with
           | _ :: popped => norm_comps initial_slashes rest popped
           | [] => norm_comps initial_slashes rest new_rev
           end
  end.

Definition normpath (path : string) : string :=
  match path with
  | EmptyString => "."
  | _ =>
      let initial := startswith path "/" in
      let two := initial && startswith path "//" && negb (startswith path "///") in
      let body := join "/" (norm_comps initial (split_str path) []) in
      let res := if initial then ((if two then "//" else "/") ++ body) else body in
      match res with EmptyString => "." | _ => res end
  end.

(** [os.path.join(a, b)] *)
Definition join2 (a b : string) : string :=
  if startswith b "/" then b
  else if negb (truthy a) || endswith a "/" then a ++ b
  else a ++ "/" ++ b.

(** [os.path.abspath], with the current directory as a parameter. *)
Definition abspath (cwd path : string) : string :=
  normpath (if startswith path "/" then path else join2 cwd path).

Fixpoint commonprefix_len (a b : list string) : nat :=
  match a, b with
  | x :: a', y :: b' => if String.eqb x y then S (commonprefix_len a' b') else O
  | _, _ => O
  end.

(** [os.path.relpath(path, start)] for a non-empty [path]. *)
Definition relpath (cwd path start : string) : string :=
  let nonempty := filter truthy in
  let start_list := nonempty (split_str (abspath cwd start)) in
  let path_list := nonempty (split_str (abspath cwd path)) in
  let i := commonprefix_len start_list path_list in
  let rel_list := List.app (repeat ".." (List.length start_list - i))
                             (skipn i path_list) in
  match rel_list with
  | [] => "."
  | x :: xs => fold_left join2 xs x
  end.

End Path.

(** ** The host and the log of actions *)

(** What the script does to the outside world, in the order it does it. *)
Inductive Event : Type :=
| Stdout (line : string)                 (* print *)
| Stderr (line : string)                 (* print(..., file=sys.stderr) *)
| Exec (argv : list string)              (* subprocess.run *)
| Mkdtemp (path : string)                (* tempfile.mkdtemp *)
| Mkdir (path : string)                  (* os.mkdir *)
| Makedirs (path : string)               (* os.makedirs *)
| ExtractAll (archive dest : string)     (* ZipFile.extractall *)
| OpenWrite (path : string)              (* open(path, 'wb' / 'wt') *)
| Write (path content : string)          (* f.write *)
| Remove (path : string)                 (* os.remove, errors swallowed *)
| Move (src dst : string)                (* shutil.move *)
| Rmtree (path : string)                 (* shutil.rmtree(ignore_errors=True) *)
| Input (prompt : string).               (* input *)

(** Modelled from the spec: [src/manifest.py] (class [Manifest]) is not among
    the sources.  The interface is the one [sunstorm.py] calls; per spec 4.1
    [get_comp manifest boardconfig component] is the mapped path or nothing,
    and [getProductBuildVersion] is the build version or a failure. *)
Class ManifestOps (Manifest : Type) : Type := {
  get_comp : Manifest -> string -> string -> option string;
  getProductBuildVersion : Manifest -> option string
}.

(** Everything the host answers.  The log handed to [run] and [exists] is the
    list of actions so far, most recent first, so that the answer of a command
    or of an existence test may depend on what ran before. *)
Record Host (Manifest : Type) : Type := {
  LINUX : bool;                                   (* sys.platform == 'linux' *)
  ROOT : string;                                  (* os.path.dirname(__file__) *)
  cwd : string;                                   (* os.getcwd() *)
  sys_executable : string;                        (* sys.executable *)
  which : string -> bool;                         (* bool(shutil.which(prog)) *)
  run : list Event -> list string -> Z * string;  (* returncode, stdout *)
  path_exists : list Event -> string -> bool;     (* os.path.exists *)
  realpath : string -> string;                    (* os.path.realpath *)
  mkdtemp : string -> string;                     (* tempfile.mkdtemp(prefix=) *)
  glob : string -> list string;                   (* glob.glob / iglob, recursive *)
  lstat_mode : string -> N;                       (* os.stat(follow_symlinks=False).st_mode *)
  isdir : string -> bool;                         (* os.path.isdir: follows links *)
  islink : string -> bool;                        (* os.path.islink *)
  readlink : string -> string;                    (* os.readlink *)
  load_manifest : string -> option Manifest;      (* Manifest(open(path).read()) *)
  get_keys : option string -> string -> string
             -> string * string * string * string; (* api.get_keys *)
  input : string -> string                        (* the operator's answer *)
}.

Arguments LINUX {Manifest}.
Arguments ROOT {Manifest}.
Arguments cwd {Manifest}.
Arguments sys_executable {Manifest}.
Arguments which {Manifest}.
Arguments run {Manifest}.
Arguments path_exists {Manifest}.
Arguments realpath {Manifest}.
Arguments mkdtemp {Manifest}.
Arguments glob {Manifest}.
Arguments lstat_mode {Manifest}.
Arguments isdir {Manifest}.
Arguments islink {Manifest}.
Arguments readlink {Manifest}.
Arguments load_manifest {Manifest}.
Arguments get_keys {Manifest}.
Arguments input {Manifest}.

(** The state threaded through the script: the log (most recent action
    first) and the directories registered with [atexit.register(cleanup, _)]. *)
Record World : Type := {
  log : list Event;
  atexit : list string
}.

Definition initial : World := {| log := []; atexit := [] |}.

(** How a piece of the script ends: it returns, [sys.exit(code)] is called,
    or an exception escapes. *)
Inductive Outcome (A : Type) : Type :=
| Ret (a : A)
| Exit (code : Z)
| Raise (exc : string).

Arguments Ret {A}.
Arguments Exit {A}.
Arguments Raise {A}.

Definition M (A : Type) : Type := World -> Outcome A * World.

Definition ret {A} (a : A) : M A := fun w => (Ret a, w).

Definition bind {A B} (m : M A) (k : A -> M B) : M B :=
  fun w =>
    match m w with
    | (Ret a, w') => k a w'
    | (Exit c, w') => (Exit c, w')
    | (Raise e, w') => (Raise e, w')
    end.

Declare Scope script_scope.
Delimit Scope script_scope with script.
Notation "x <- m ;; k" := (bind m (fun x => k))
  (at level 61, m at next level, right associativity) : script_scope.
Notation "m ;; k" := (bind m (fun _ => k))
  (at level 61, right associativity) : script_scope.
Open Scope script_scope.

Definition sys_exit {A} (code : Z) : M A := fun w => (Exit code, w).
Definition raise {A} (exc : string) : M A := fun w => (Raise exc, w).

Definition emit (e : Event) : M unit :=
  fun w => (Ret tt, {| log := e :: log w; atexit := atexit w |}).

Definition get_log : M (list Event) := fun w => (Ret (log w), w).

Definition atexit_register (directory : string) : M unit :=
  fun w => (Ret tt, {| log := log w; atexit := directory :: atexit w |}).

Definition atexit_unregister : M unit :=
  fun w => (Ret tt, {| log := log w; atexit := [] |}).

(** [for x in xs: body] *)
Fixpoint for_ {A} (xs : list A) (body : A -> M unit) : M unit :=
  match xs with
  | [] => ret tt
  | x :: rest => body x ;; for_ rest body
  end.

(** A value that must be a string: [None] makes the concatenation
    [str + None] raise [TypeError]. *)
Definition concat_path (pre : string) (p : option string) : M string :=
  match p with
  | Some s => ret (pre ++ s)
  | None => raise "TypeError"
  end.

Definition truthy_opt (o : option string) : bool :=
  match o with Some s => Py.truthy s | None => false end.

(** The commands of a log, oldest first. *)
Fixpoint execs_rev (l : list Event) : list (list string) :=
  match l with
  | [] => []
  | Exec argv :: r => argv :: execs_rev r
  | _ :: r => execs_rev r
  end.

Definition execs (l : list Event) : list (list string) := rev (execs_rev l).

(** The paths handed to [os.remove] in a log. *)
Fixpoint removed (l : list Event) : list string :=
  match l with
  | [] => []
  | Remove p :: r => p :: removed r
  | _ :: r => removed r
  end.

(** The lines written to standard error in a log. *)
Fixpoint stderr_lines (l : list Event) : list string :=
  match l with
  | [] => []
  | Stderr s :: r => s :: stderr_lines r
  | _ :: r => stderr_lines r
  end.

(** Mode constants of [stat.h]. *)
Definition o755 : N := Eval cbv in Py.of_oct "755".
Definition o777 : N := Eval cbv in Py.of_oct "777".
Definition S_IFIFO : N := Eval cbv in Py.of_oct "010000".
Definition S_IFREG : N := Eval cbv in Py.of_oct "100000".
Definition S_IFLNK : N := Eval cbv in Py.of_oct "120000".
Definition S_IFDIR : N := Eval cbv in Py.of_oct "040000".

(** ** The script *)

Section Sunstorm.

Context {Manifest : Type} {ops : ManifestOps Manifest}.
Variable host : Host Manifest.

(** Global variables of the module. *)
Definition DEBUG : bool := false.

Definition program_list : list string :=
  [ "futurerestore"; "img4tool"; "Kernel64Patcher"; "iBoot64Patcher"; "ldid";
    "asr64_patcher"; "restored_external64_patcher";
    if LINUX host then "hfsplus" else "hdiutil" ].

Definition print (s : string) : M unit := emit (Stdout s).

Definition print_error (s : string) : M unit :=
  emit (Stderr ("[!] Error: " ++ s)).

Definition print_info (s : string) : M unit :=
  emit (Stdout ("[*] Info: " ++ s)).

(** [cleanup]: the [atexit] hook. *)
Definition cleanup (directory : string) : M unit :=
  if DEBUG then ret tt else emit (Rmtree directory).

(** [cleanup_trim(work, suffix)] *)
Definition cleanup_trim (work suffix : string) : M unit :=
  let file_list :=
    filter (fun fn => negb (Py.endswith (Path.basename fn) suffix))
           (glob host (work ++ "/**/*")) in
  for_ file_list (fun fn =>
    if Py.startswith fn work && negb DEBUG then emit (Remove fn) else ret tt).

Definition check_for_command (prog : string) : bool := which host prog.

(** [check_for_dependencies] *)
Definition check_for_dependencies : M unit :=
  for_ program_list (fun prog =>
    if negb (check_for_command prog) then
      print_error (Py.dq ++ prog ++ Py.dq ++ " not found, please install it.") ;;
      sys_exit 1
    else ret tt).

(** [execute(arguments, ignore_errors)] *)
Definition execute (arguments : list string) (ignore_errors : bool) : M string :=
  (if DEBUG then print (Py.repr_list arguments) else ret tt) ;;
  l <- get_log ;;
  let result := run host l arguments in
  emit (Exec arguments) ;;
  (if (fst result >? 0)%Z then
     print_error ("Command " ++ Py.dq ++ Py.repr_list arguments ++ Py.dq
                  ++ " returned non-zero") ;;
     (if negb ignore_errors then sys_exit 1 else ret tt)
   else ret tt) ;;
  ret (snd result).

Definition os_path_exists (p : string) : M bool :=
  fun w => (Ret (path_exists host (log w) p), w).

(** The destination path inside the image: the path relative to the staging
    root, with a leading separator. *)
Definition image_path (work file : string) : string :=
  let path := Path.relpath (cwd host) file (work ++ "/ramdisk") in
  if negb (Py.startswith path "/") then "/" ++ path else path.

(** The mode handed to [hfsplus chmod] for a staged file: the last three
    octal digits of its [st_mode], replaced by [100755] in a directory whose
    name ends in [bin], [sbin] or [libexec] when they read as a number below
    755.  [None] is the [ValueError] of [int]. *)
Definition chmod_mode (dirname : string) (st_mode : N) : option string :=
  let permission := Py.last_chars 3 (Py.oct st_mode) in
  if Py.endswith_any dirname ["bin"; "sbin"; "libexec"] then
    match Py.int_ permission with
    | None => None
    | Some n => Some (if (n <? 755)%Z then "100755" else permission)
    end
  else Some permission.

(** The body of the second loop of [linux_hfsplus_sync]. *)
Definition sync_file (work file : string) : M unit :=
  let st_mode := lstat_mode host file in
  let path0 := Path.relpath (cwd host) file (work ++ "/ramdisk") in
  let dirname := Path.dirname path0 in
  let path := image_path work file in
  if isdir host file then ret tt
  else
    permission <- match chmod_mode dirname st_mode with
                  | Some p => ret p
                  | None => raise "ValueError"
                  end ;;
    (if islink host file then
       let symlink := readlink host file in
       execute ["hfsplus"; work ++ "/ramdisk.dmg"; "link"; path; symlink] true
     else
       execute ["hfsplus"; work ++ "/ramdisk.dmg"; "add"; file; path] true) ;;
    execute ["hfsplus"; work ++ "/ramdisk.dmg"; "chmod"; permission; path] true ;;
    ret tt.

(** The body of the first loop. *)
Definition sync_dir (work directory : string) : M unit :=
  execute ["hfsplus"; work ++ "/ramdisk.dmg"; "mkdir"; image_path work directory]
          true ;;
  ret tt.

(** [linux_hfsplus_sync(work)] *)
Definition linux_hfsplus_sync (work : string) : M unit :=
  staged <- os_path_exists (work ++ "/ramdisk") ;;
  image <- os_path_exists (work ++ "/ramdisk.dmg") ;;
  (if negb (staged && image) then
     print_error ("Missing " ++ work ++ "/ramdisk or " ++ work
                  ++ "/ramdisk.dmg (this is a bug)") ;;
     sys_exit 1
   else ret tt) ;;
  for_ (glob host (work ++ "/ramdisk/*/**/")) (sync_dir work) ;;
  for_ (glob host (work ++ "/ramdisk/**")) (sync_file work).

(** [prep_restore(ipsw, blob, boardconfig, kpp, legacy, skip_baseband,
    extra_ramdisk)] *)
Definition prep_restore (ipsw blob boardconfig : string) (kpp legacy
    skip_baseband : bool) (extra_ramdisk : option string) : M unit :=
  let work := mkdtemp host "restore-" in
  emit (Mkdtemp work) ;;
  emit (Mkdir (work ++ "/ramdisk")) ;;
  atexit_register work ;;
  print_info "Extracting IPSW" ;;
  emit (ExtractAll ipsw work) ;;
  manifest <- match load_manifest host (work ++ "/BuildManifest.plist") with
              | Some m => ret m
              | None => raise "ManifestParseError"
              end ;;
  let ramdisk_path := get_comp manifest boardconfig "RestoreRamDisk" in
  ramdisk_path <- match ramdisk_path with
                  | None =>
                      print_error "Error: BoardConfig was not recognized" ;;
                      sys_exit 1
                  | Some p => ret p
                  end ;;
  print_info "Extracting RamDisk" ;;
  execute ["img4"; "-i"; work ++ "/" ++ ramdisk_path; "-o"; work ++ "/ramdisk.dmg"]
          false ;;
  print_info "Mounting RamDisk" ;;
  (if LINUX host then
     emit (Makedirs (work ++ "/ramdisk/usr/sbin/")) ;;
     emit (Makedirs (work ++ "/ramdisk/usr/local/bin/")) ;;
     execute ["hfsplus"; work ++ "/ramdisk.dmg"; "extract"; "/usr/sbin/asr";
              work ++ "/ramdisk/usr/sbin/asr"] false ;;
     execute ["hfsplus"; work ++ "/ramdisk.dmg"; "extract";
              "/usr/local/bin/restored_external";
              work ++ "/ramdisk/usr/local/bin/restored_external"] false ;;
     execute ["hfsplus"; work ++ "/ramdisk.dmg"; "rm"; "/usr/sbin/asr"] false ;;
     execute ["hfsplus"; work ++ "/ramdisk.dmg"; "rm";
              "/usr/local/bin/restored_external"] false ;;
     ret tt
   else
     print_info "Mounting RamDisk" ;;
     execute ["hdiutil"; "attach"; work ++ "/ramdisk.dmg"; "-mountpoint";
              work ++ "/ramdisk"] false ;;
     ret tt) ;;
  (match extra_ramdisk with
   | Some extra =>
       if Py.truthy extra then
         print_info "Extracting custom ramdisk tar-ball" ;;
         execute ["tar"; "-C"; work ++ "/ramdisk/"; "-xf"; extra] false ;;
         (if LINUX host then
            execute ["hfsplus"; work ++ "/ramdisk.dmg"; "grow"; "500000000"] false
          else
            execute ["hdiutil"; "resize"; "-size"; "5120MB"; work ++ "/ramdisk.dmg"]
                    false) ;;
         ret tt
       else ret tt
   | None => ret tt
   end) ;;
  print_info "Patching ASR in the RamDisk" ;;
  execute ["asr64_patcher"; work ++ "/ramdisk/usr/sbin/asr"; work ++ "/patched_asr"]
          false ;;
  print_info "Extracting ASR Ents" ;;
  emit (OpenWrite (work ++ "/asr.plist")) ;;
  ents <- execute ["ldid"; "-e"; work ++ "/ramdisk/usr/sbin/asr"] false ;;
  emit (Write (work ++ "/asr.plist") ents) ;;
  print_info "Resigning ASR" ;;
  execute ["ldid"; "-S" ++ work ++ "/asr.plist"; work ++ "/patched_asr"] false ;;
  print_info "Chmoding ASR" ;;
  execute ["chmod"; "-R"; "755"; work ++ "/patched_asr"] false ;;
  print_info "Copying Patched ASR back to the RamDisk" ;;
  execute ["cp"; work ++ "/patched_asr"; work ++ "/ramdisk/usr/sbin/asr"] false ;;
  (if legacy then
     print_info "Legacy mode, skipping restored_external"
   else
     print_info "Patching Restored External" ;;
     execute ["restored_external64_patcher";
              work ++ "/ramdisk/usr/local/bin/restored_external";
              work ++ "/restored_external_patched"] false ;;
     print_info "Extracting Restored External Ents" ;;
     emit (OpenWrite (work ++ "/restored_external.plist")) ;;
     ents <- execute ["ldid"; "-e";
                      work ++ "/ramdisk/usr/local/bin/restored_external"] false ;;
     emit (Write (work ++ "/restored_external.plist") ents) ;;
     print_info "Resigning Restored External" ;;
     execute ["ldid"; "-S" ++ work ++ "/restored_external.plist";
              work ++ "/restored_external_patched"] false ;;
     print_info "Chmoding Restored External" ;;
     execute ["chmod"; "-R"; "755"; work ++ "/restored_external_patched"] false ;;
     print_info "Copying Patched Restored External back to the RamDisk" ;;
     execute ["cp"; work ++ "/restored_external_patched";
              work ++ "/ramdisk/usr/local/bin/restored_external"] false ;;
     ret tt) ;;
  print_info "Detaching RamDisk" ;;
  (if LINUX host then
     (if truthy_opt extra_ramdisk then linux_hfsplus_sync work else ret tt) ;;
     execute ["hfsplus"; work ++ "/ramdisk.dmg"; "add";
              work ++ "/ramdisk/usr/sbin/asr"; "/usr/sbin/asr"] false ;;
     execute ["hfsplus"; work ++ "/ramdisk.dmg"; "add";
              work ++ "/ramdisk/usr/local/bin/restored_external";
              "/usr/local/bin/restored_external"] false ;;
     execute ["hfsplus"; work ++ "/ramdisk.dmg"; "chmod"; "100755"; "/usr/sbin/asr"]
             false ;;
     execute ["hfsplus"; work ++ "/ramdisk.dmg"; "chmod"; "100755";
              "/usr/local/bin/restored_external"] false ;;
     ret tt
   else
     execute ["hdiutil"; "detach"; work ++ "/ramdisk"] false ;;
     ret tt) ;;
  print_info "Creating RamDisk" ;;
  execute [sys_executable host; "-m"; "pyimg4"; "im4p"; "create"; "-i";
           work ++ "/ramdisk.dmg"; "-o"; work ++ "/ramdisk.im4p"; "-f"; "rdsk"]
          false ;;
  let kernelcache := get_comp manifest boardconfig "RestoreKernelCache" in
  print_info "Extracting Kernel" ;;
  kernel_in <- concat_path (work ++ "/") kernelcache ;;
  let extract_kernel_args :=
    [sys_executable host; "-m"; "pyimg4"; "im4p"; "extract"; "-i"; kernel_in;
     "-o"; work ++ "/kcache.raw"] in
  let extract_kernel_args :=
    if kpp then List.app extract_kernel_args ["--extra"; work ++ "/kpp.bin"]
    else extract_kernel_args in
  execute extract_kernel_args false ;;
  print_info "Patching Kernel" ;;
  execute ["Kernel64Patcher"; work ++ "/kcache.raw"; work ++ "/krnl.patched";
           "-f"; "-a"] false ;;
  print_info "Rebuilding Kernel" ;;
  let rebuild_kernel_args :=
    [sys_executable host; "-m"; "pyimg4"; "im4p"; "create"; "-i";
     work ++ "/krnl.patched"; "-o"; work ++ "/krnl.im4p"; "-f"; "rkrn"; "--lzss"] in
  let rebuild_kernel_args :=
    if kpp then List.app rebuild_kernel_args ["--extra"; work ++ "/kpp.bin"]
    else rebuild_kernel_args in
  execute rebuild_kernel_args false ;;
  cleanup_trim work "im4p" ;;
  print_info "Moving files" ;;
  emit (Move work (ROOT host)) ;;
  let work := realpath host (ROOT host ++ "/" ++ Path.basename work) in
  print_info ("Done! Files moved to " ++ Py.dq ++ work ++ Py.dq) ;;
  let futurerestore_args :=
    ["futurerestore"; "-t"; blob; "--use-pwndfu"; "--skip-blob"; "--rdsk";
     work ++ "/ramdisk.im4p"; "--rkrn"; work ++ "/krnl.im4p"; "--latest-sep";
     if skip_baseband then "--no-baseband" else "--latest-baseband"; ipsw] in
  let futurerestore_args_string := Py.join " " futurerestore_args in
  print_info "You can restore the device anytime by running the following command with the device in a pwndfu state:" ;;
  print futurerestore_args_string ;;
  emit (OpenWrite (work ++ "/restore.command")) ;;
  emit (Write (work ++ "/restore.command") futurerestore_args_string) ;;
  emit (Input "Would you like to restore now? [Yy/Nn]: ") ;;
  let ask := input host "Would you like to restore now? [Yy/Nn]: " in
  (if String.eqb ask "y" || String.eqb ask "Y" then
     execute futurerestore_args false ;; ret tt
   else ret tt) ;;
  atexit_unregister.

(** [prep_boot(ipsw, blob, boardconfig, kpp, identifier, legacy,
    extra_ramdisk, boot_arguments)] *)
Definition prep_boot (ipsw blob boardconfig : string) (kpp : bool)
    (identifier : option string) (legacy : bool) (extra_ramdisk : option string)
    (boot_arguments : string) : M unit :=
  let work := mkdtemp host "boot-" in
  emit (Mkdtemp work) ;;
  emit (Mkdir (work ++ "/ramdisk")) ;;
  atexit_register work ;;
  print_info "Unzipping IPSW" ;;
  emit (ExtractAll ipsw work) ;;
  manifest <- match load_manifest host (work ++ "/BuildManifest.plist") with
              | Some m => ret m
              | None => raise "ManifestParseError"
              end ;;
  print_info "Getting ProductBuildVersion" ;;
  productbuildversion <- match getProductBuildVersion manifest with
                         | Some v => ret v
                         | None => raise "ManifestFieldMissing"
                         end ;;
  let '(ibss_iv, ibss_key, ibec_iv, ibec_key) :=
    get_keys host identifier boardconfig productbuildversion in
  (if negb (Py.truthy ibss_iv && Py.truthy ibss_key
            && Py.truthy ibec_iv && Py.truthy ibec_key) then
     print_error "Possible incorrect identifier or boardconfig"
   else ret tt) ;;
  print_info "Getting IBSS and IBEC" ;;
  let ibss := get_comp manifest boardconfig "iBSS" in
  let ibec := get_comp manifest boardconfig "iBEC" in
  print_info "Decrypting IBSS" ;;
  ibss_in <- concat_path (work ++ "/") ibss ;;
  execute ["img4"; "-i"; ibss_in; "-o"; work ++ "/ibss.dmg"; "-k";
           ibss_iv ++ ibss_key] false ;;
  print_info "Decrypting IBEC" ;;
  ibec_in <- concat_path (work ++ "/") ibec ;;
  execute ["img4"; "-i"; ibec_in; "-o"; work ++ "/ibec.dmg"; "-k";
           ibec_iv ++ ibec_key] false ;;
  print_info "Patching IBSS" ;;
  execute ["iBoot64Patcher"; work ++ "/ibss.dmg"; work ++ "/ibss.patched"] false ;;
  print_info "Patching IBEC" ;;
  execute ["iBoot64Patcher"; work ++ "/ibec.dmg"; work ++ "/ibec.patched"; "-n";
           "-b"; "-v " ++ boot_arguments] false ;;
  print_info "Converting BLOB to IM4M" ;;
  execute ["img4tool"; "-e"; "-s"; blob; "-m"; "IM4M"] false ;;
  print_info "Converting IBSS to IMG4" ;;
  execute ["img4"; "-i"; work ++ "/ibss.patched"; "-o"; work ++ "/ibss.img4"; "-M";
           "IM4M"; "-A"; "-T"; "ibss"] false ;;
  print_info "Converting IBEC to IMG4" ;;
  execute ["img4"; "-i"; work ++ "/ibec.patched"; "-o"; work ++ "/ibec.img4"; "-M";
           "IM4M"; "-A"; "-T"; "ibec"] false ;;
  print_info "Getting Device Tree and TrustCache" ;;
  let trustcache :=
    if negb legacy then get_comp manifest boardconfig "StaticTrustCache"
    else None in
  let devicetree := get_comp manifest boardconfig "DeviceTree" in
  print_info "Signing Device Tree" ;;
  devicetree_in <- concat_path (work ++ "/") devicetree ;;
  execute ["img4"; "-i"; devicetree_in; "-o"; work ++ "/devicetree.img4"; "-M";
           "IM4M"; "-T"; "rdtr"] false ;;
  (if negb legacy then
     print_info "Signing Trust Cache" ;;
     trustcache_in <- concat_path (work ++ "/") trustcache ;;
     execute ["img4"; "-i"; trustcache_in; "-o"; work ++ "/trustcache.img4"; "-M";
              "IM4M"; "-T"; "rtsc"] false ;;
     ret tt
   else ret tt) ;;
  print_info "Getting Kernel Cache" ;;
  let kernelcache := get_comp manifest boardconfig "KernelCache" in
  print_info "Extracting Kernel" ;;
  kernel_in <- concat_path (work ++ "/") kernelcache ;;
  let extract_kernel_args :=
    [sys_executable host; "-m"; "pyimg4"; "im4p"; "extract"; "-i"; kernel_in;
     "-o"; work ++ "/kcache.raw"] in
  let extract_kernel_args :=
    if kpp then List.app extract_kernel_args ["--extra"; work ++ "/kpp.bin"]
    else extract_kernel_args in
  execute extract_kernel_args false ;;
  print_info "Patching Kernel" ;;
  execute ["Kernel64Patcher"; work ++ "/kcache.raw"; work ++ "/krnlboot.patched";
           "-f"; if truthy_opt extra_ramdisk then "-a" else EmptyString] false ;;
  print_info "Converting Kernel" ;;
  let convert_kernel_args :=
    [sys_executable host; "-m"; "pyimg4"; "im4p"; "create"; "-i";
     work ++ "/krnlboot.patched"; "-o"; work ++ "/krnlboot.im4p"; "-f"; "rkrn";
     "--lzss"] in
  let convert_kernel_args :=
    if kpp then List.app convert_kernel_args ["--extra"; work ++ "/kpp.bin"]
    else convert_kernel_args in
  execute convert_kernel_args false ;;
  print_info "Signing Kernel" ;;
  execute [sys_executable host; "-m"; "pyimg4"; "img4"; "create"; "-p";
           work ++ "/krnlboot.im4p"; "-o"; work ++ "/krnlboot.img4"; "-m"; "IM4M"]
          false ;;
  (match extra_ramdisk with
   | Some extra =>
       if Py.truthy extra then
         let ramdisk_path := get_comp manifest boardconfig "RestoreRamDisk" in
         ramdisk_path <- match ramdisk_path with
                         | None =>
                             print_error "Error: BoardConfig was not recognized" ;;
                             sys_exit 1
                         | Some p => ret p
                         end ;;
         print_info "Extracting RamDisk" ;;
         execute ["img4"; "-i"; work ++ "/" ++ ramdisk_path; "-o";
                  work ++ "/ramdisk.dmg"] false ;;
         print_info "Extracting custom ramdisk tar-ball" ;;
         execute ["tar"; "-C"; work ++ "/ramdisk/"; "-xf"; extra] false ;;
         (if LINUX host then
            execute ["hfsplus"; work ++ "/ramdisk.dmg"; "grow"; "500000000"] false
          else
            execute ["hdiutil"; "resize"; "-size"; "5120MB"; work ++ "/ramdisk.dmg"]
                    false) ;;
         print_info "Detaching RamDisk" ;;
         (if LINUX host then linux_hfsplus_sync work
          else execute ["hdiutil"; "detach"; work ++ "/ramdisk"] false ;; ret tt) ;;
         print_info "Creating RamDisk" ;;
         execute ["img4"; "-i"; work ++ "/ramdisk.dmg"; "-o"; work ++ "/ramdisk.img4";
                  "-M"; "IM4M"; "-A"; "-T"; "rdsk"] false ;;
         ret tt
       else ret tt
   | None => ret tt
   end) ;;
  cleanup_trim work "img4" ;;
  print_info "Moving files" ;;
  emit (Move work (ROOT host)) ;;
  let work := realpath host (ROOT host ++ "/" ++ Path.basename work) in
  print_info ("Done! Files moved to " ++ Py.dq ++ work ++ Py.dq) ;;
  print_info "You can boot the restored device anytime by running the following command with the device in a pwndfu state:" ;;
  print (realpath host (ROOT host) ++ "/scripts/"
         ++ (if kpp then "boot.sh" else "boot-A10plus.sh")) ;;
  print_info ("Make sure to `cd` into " ++ Py.dq ++ work ++ Py.dq
              ++ " before running!") ;;
  atexit_unregister.

(** The parsed command line ([argparse] has already rejected a line without
    exactly one of [--boot] and [--restore]). *)
Record Args : Type := {
  arg_ipsw : string;
  arg_blob : string;
  arg_boardconfig : string;
  arg_kpp : bool;
  arg_identifier : option string;
  arg_legacy : bool;
  arg_skip_baseband : bool;
  arg_extra_ramdisk : option string;
  arg_boot_arguments : option string;
  arg_boot : bool;
  arg_restore : bool
}.

Definition with_boardconfig (args : Args) (b : string) : Args :=
  {| arg_ipsw := arg_ipsw args; arg_blob := arg_blob args;
     arg_boardconfig := b; arg_kpp := arg_kpp args;
     arg_identifier := arg_identifier args; arg_legacy := arg_legacy args;
     arg_skip_baseband := arg_skip_baseband args;
     arg_extra_ramdisk := arg_extra_ramdisk args;
     arg_boot_arguments := arg_boot_arguments args;
     arg_boot := arg_boot args; arg_restore := arg_restore args |}.

(** [main()], after [parser.parse_args()]. *)
Definition main (args : Args) : M unit :=
  check_for_dependencies ;;
  let restore := arg_restore args in
  let boot := arg_boot args in
  let ipsw := realpath host (arg_ipsw args) in
  let blob := realpath host (arg_blob args) in
  let boardconfig := Py.lower (arg_boardconfig args) in
  let kpp := arg_kpp args in
  let legacy := arg_legacy args in
  let skip_baseband := arg_skip_baseband args in
  let extra_ramdisk :=
    if truthy_opt (arg_extra_ramdisk args)
    then option_map (realpath host) (arg_extra_ramdisk args) else None in
  let boot_arguments :=
    match arg_boot_arguments args with
    | Some s => if Py.truthy s then s else EmptyString
    | None => EmptyString
    end in
  let identifier := arg_identifier args in
  ipsw_there <- os_path_exists ipsw ;;
  (if negb ipsw_there then
     print_error ("IPSW " ++ Py.dq ++ ipsw ++ Py.dq ++ " doesn't exist") ;;
     sys_exit 1
   else ret tt) ;;
  blob_there <- os_path_exists blob ;;
  (if negb blob_there then
     print_error ("Blob " ++ Py.dq ++ blob ++ Py.dq ++ " doesn't exist") ;;
     sys_exit 1
   else ret tt) ;;
  (if boot && negb (truthy_opt identifier) then
     print_error "You need to specify an identifier (--identifier)" ;;
     sys_exit 1
   else ret tt) ;;
  (match extra_ramdisk with
   | Some extra =>
       if Py.truthy extra then
         extra_there <- os_path_exists extra ;;
         if negb extra_there || negb (Py.endswith extra ".tar.gz") then
           print_error "Extra ramdisk must be in the $file.tar.gz format" ;;
           sys_exit 1
         else ret tt
       else ret tt
   | None => ret tt
   end) ;;
  (if restore then
     prep_restore ipsw blob boardconfig kpp legacy skip_baseband extra_ramdisk
   else if boot then
     prep_boot ipsw blob boardconfig kpp identifier legacy extra_ramdisk
               boot_arguments
   else
     print_error "No mode selected (this is a bug)" ;;
     print "Namespace(...)" ;;   (* print(args): argparse never lets this run *)
     sys_exit 1) ;;
  sys_exit 0.

(** What [parser.parse_args()] (lines 475 to 491) makes of the command line.
    [argparse] returns the namespace, or leaves the interpreter itself: with
    status 2, after the usage and the error message on standard error, for a
    line it rejects (an option required and missing, both or neither of
    [--boot] and [--restore], an unknown option), and with status 0, after
    the help text on standard output, for [-h] or [--help]. *)
Inductive CommandLine : Type :=
| Accepted (args : Args)
| Rejected (usage : string)
| HelpAsked (help : string).

Definition parse_args (line : CommandLine) : M Args :=
  match line with
  | Accepted args => ret args
  | Rejected usage => emit (Stderr usage) ;; sys_exit 2
  | HelpAsked help => emit (Stdout help) ;; sys_exit 0
  end.

(** [main()] from its first line: the parser, then the rest. *)
Definition main_of_command_line (line : CommandLine) : M unit :=
  args <- parse_args line ;; main args.

(** The interpreter leaving: the [atexit] hooks run, last registered first. *)
Definition at_exit : M unit :=
  fun w => for_ (atexit w) cleanup w.

(** A whole run of the script from a fresh process. *)
Definition run_script (args : Args) : Outcome unit * World :=
  let (r, w) := main args initial in
  (r, snd (at_exit w)).

End Sunstorm.

(** ** Auxiliary definitions for the statements *)

(** The same host with other answers from the external commands. *)
Definition with_run {Manifest} (host : Host Manifest)
    (r : list Event -> list string -> Z * string) : Host Manifest :=
  {| LINUX := LINUX host; ROOT := ROOT host; cwd := cwd host;
     sys_executable := sys_executable host; which := which host;
     run := r; path_exists := path_exists host; realpath := realpath host;
     mkdtemp := mkdtemp host; glob := glob host; lstat_mode := lstat_mode host;
     isdir := isdir host; islink := islink host; readlink := readlink host;
     load_manifest := load_manifest host; get_keys := get_keys host;
     input := input host |}.

(** The commands the second pass issues for one walked path. *)
Definition file_commands {Manifest} (host : Host Manifest) (work file : string)
  : list (list string) :=
  let dirname :=
    Path.dirname (Path.relpath (cwd host) file (work ++ "/ramdisk")) in
  let path := image_path host work file in
  if isdir host file then []
  else match chmod_mode dirname (lstat_mode host file) with
       | None => []
       | Some permission =>
           [ if islink host file
             then ["hfsplus"; work ++ "/ramdisk.dmg"; "link"; path;
                   readlink host file]
             else ["hfsplus"; work ++ "/ramdisk.dmg"; "add"; file; path];
             ["hfsplus"; work ++ "/ramdisk.dmg"; "chmod"; permission; path] ]
       end.

(** The commands of a whole synthesis, in order: one [mkdir] per walked
    directory, then the commands of each walked path. *)
Definition sync_commands {Manifest} (host : Host Manifest) (work : string)
  : list (list string) :=
  List.app
    (map (fun d => ["hfsplus"; work ++ "/ramdisk.dmg"; "mkdir";
                    image_path host work d])
         (glob host (work ++ "/ramdisk/*/**/")))
    (flat_map (file_commands host work) (glob host (work ++ "/ramdisk/**"))).

(** An [st_mode] a real [lstat] can return carries a file type; the smallest
    file-type constant is [S_IFIFO]. *)
Definition has_file_type (st_mode : N) : Prop := (S_IFIFO <= st_mode)%N.

(** Two characters are the same up to ASCII case: equal, or one is an
    upper-case letter and the other the letter 32 code points above it. *)
Definition ascii_eq_upto_case (c d : ascii) : bool :=
  Ascii.eqb c d
  || (Py.is_upper c && (nat_of_ascii d =? nat_of_ascii c + 32)%nat)
  || (Py.is_upper d && (nat_of_ascii c =? nat_of_ascii d + 32)%nat).

Fixpoint eq_upto_case (a b : string) : bool :=
  match a, b with
  | EmptyString, EmptyString => true
  | String c a', String d b' => ascii_eq_upto_case c d && eq_upto_case a' b'
  | _, _ => false
  end.

(** Every command succeeds, whatever ran before. *)
Definition commands_succeed {Manifest} (host : Host Manifest) : Prop :=
  forall l argv, (fst (run host l argv) <= 0)%Z.

(** From [w] to [w'] exactly the commands [cmds] ran, the [atexit] hooks and
    the removed files are as before, and nothing reached standard error
    unless a command failed. *)
Definition issued {Manifest} (host : Host Manifest)
    (cmds : list (list string)) (w w' : World) : Prop :=
  execs_rev (log w') = List.app (rev cmds) (execs_rev (log w))
  /\ atexit w' = atexit w
  /\ removed (log w') = removed (log w)
  /\ (commands_succeed host -> stderr_lines (log w') = stderr_lines (log w)).

(** Whether a command names the path [p] among its arguments. *)
Definition names (p : string) (argv : list string) : bool :=
  existsb (String.eqb p) argv.

(** The world after one more action. *)
Definition logged (e : Event) (w : World) : World :=
  {| log := e :: log w; atexit := atexit w |}.

(** A piece of the script only adds to the log. *)
Definition grows {A} (m : M A) : Prop :=
  forall w, exists l, log (snd (m w)) = List.app l (log w).

(** A run that ends in the stage announced by [stage] with an unhandled
    [TypeError]: the announcement is the last action, and the run wrote to
    standard error the lines [warnings] and nothing else. *)
Definition fails_in_stage (r : Outcome unit * World) (w : World)
    (warnings : list string) (stage : string) : Prop :=
  fst r = Raise "TypeError"
  /\ hd_error (log (snd r)) = Some (Stdout ("[*] Info: " ++ stage))
  /\ stderr_lines (log (snd r)) = List.app warnings (stderr_lines (log w)).

(** The warning BootFlow prints about the keys, if any. *)
Definition key_warning (keys : string * string * string * string) : list string :=
  let '(ibss_iv, ibss_key, ibec_iv, ibec_key) := keys in
  if Py.truthy ibss_iv && Py.truthy ibss_key
     && Py.truthy ibec_iv && Py.truthy ibec_key
  then [] else ["[!] Error: Possible incorrect identifier or boardconfig"].

(** The synthesis can start and walks real files: its precondition holds
    whenever it is reached, and every walked path has the mode of a real
    [lstat]. *)
Definition sync_ready {Manifest} (host : Host Manifest) (work : string) : Prop :=
  (forall l, path_exists host l (work ++ "/ramdisk") = true)
  /\ (forall l, path_exists host l (work ++ "/ramdisk.dmg") = true)
  /\ Forall (fun f => has_file_type (lstat_mode host f))
             (glob host (work ++ "/ramdisk/**")).

(** A piece of the script that returns and leaves standard error alone. *)
Definition quiet {A} (m : M A) : Prop :=
  forall w, exists a w',
    m w = (Ret a, w') /\ stderr_lines (log w') = stderr_lines (log w).

(** A piece of the script that, from any world, ends in the stage announced
    by [stage] with an unhandled [TypeError], having written [warnings] to
    standard error. *)
Definition doomed (warnings : list string) (stage : string) (m : M unit) : Prop :=
  forall w, fails_in_stage (m w) w warnings stage.

(** A piece of the script leaves the [atexit] hooks as they are. *)
Definition steady {A} (m : M A) : Prop :=
  forall w, atexit (snd (m w)) = atexit w.

(** A piece of the script that clears the hooks when it returns and leaves
    them alone when it does not. *)
Definition releases (m : M unit) : Prop :=
  forall w, atexit (snd (m w))
            = match fst (m w) with Ret _ => [] | _ => atexit w end.

(** A flow that registers its working directory [d] and clears the hooks
    only by returning. *)
Definition hooked (d : string) (m : M unit) : Prop :=
  forall w, atexit (snd (m w))
            = match fst (m w) with Ret _ => [] | _ => d :: atexit w end.

(** What holds of the world after a piece of the script whenever it
    returns. *)
Definition on_return {A} (Q : World -> Prop) (m : M A) : Prop :=
  forall w a, fst (m w) = Ret a -> Q (snd (m w)).

(** The error line [execute] prints for a failed command. *)
Definition failure_line (argv : list string) : string :=
  "[!] Error: Command " ++ Py.dq ++ Py.repr_list argv ++ Py.dq
  ++ " returned non-zero".

(** Fail-stop: among the actions [l] added on top of the log [old], a command
    that exited non-zero is followed by its error line and nothing else, and
    the piece of the script ended with status 1. *)
Definition stops_at_failure {Manifest} (host : Host Manifest) {A}
    (r : Outcome A) (l old : list Event) : Prop :=
  forall later argv earlier,
    l = List.app later (Exec argv :: earlier) ->
    (0 < fst (run host (List.app earlier old) argv))%Z ->
    r = Exit 1 /\ later = [Stderr (failure_line argv)].

Definition strict {Manifest} (host : Host Manifest) {A} (m : M A) : Prop :=
  forall w, exists l,
    log (snd (m w)) = List.app l (log w)
    /\ stops_at_failure host (fst (m w)) l (log w).

(** The same host reading another manifest from the bundle. *)
Definition with_load_manifest {Manifest} (host : Host Manifest)
    (lm : string -> option Manifest) : Host Manifest :=
  {| LINUX := LINUX host; ROOT := ROOT host; cwd := cwd host;
     sys_executable := sys_executable host; which := which host;
     run := run host; path_exists := path_exists host;
     realpath := realpath host; mkdtemp := mkdtemp host; glob := glob host;
     lstat_mode := lstat_mode host; isdir := isdir host;
     islink := islink host; readlink := readlink host;
     load_manifest := lm; get_keys := get_keys host; input := input host |}.

(** The directories removed by [shutil.rmtree] in a log. *)
Fixpoint rmtrees (l : list Event) : list string :=
  match l with
  | [] => []
  | Rmtree d :: r => d :: rmtrees r
  | _ :: r => rmtrees r
  end.

(** A piece of the script only adds to the log, every action it adds
    satisfies [P], and whenever it calls [sys.exit] the status is 1. *)
Definition tame {A} (P : Event -> Prop) (m : M A) : Prop :=
  forall w,
    (exists l, log (snd (m w)) = List.app l (log w) /\ Forall P l)
    /\ (forall c, fst (m w) = Exit c -> c = 1%Z).

(** A check: it returns and leaves the world as it was, or it exits with
    status 1. *)
Definition gate {A} (m : M A) : Prop :=
  forall w, (exists a, m w = (Ret a, w)) \/ (exists w', m w = (Exit 1, w')).

(** A run that never returns and whose exit status is 1, or 0 with [Q]
    holding of the world it started in. *)
Definition status {A} (Q : World -> Prop) (m : M A) : Prop :=
  forall w, match fst (m w) with
            | Ret _ => False
            | Exit c => c = 1%Z \/ (c = 0%Z /\ Q w)
            | Raise _ => True
            end.

(** An action other than the removal of a directory tree. *)
Definition not_rmtree (e : Event) : Prop :=
  match e with Rmtree _ => False | _ => True end.

(** An action other than the removal of a directory tree and a question to
    the operator. *)
Definition routine (e : Event) : Prop :=
  match e with Rmtree _ | Input _ => False | _ => True end.

(** An action of the image synthesis: one of the four image primitives of
    [hfsplus] on the target image, or a line on standard error. *)
Definition image_primitive (work : string) (e : Event) : Prop :=
  match e with
  | Stderr _ => True
  | Exec (tool :: image :: op :: _) =>
      tool = "hfsplus" /\ image = work ++ "/ramdisk.dmg"
      /\ In op ["mkdir"; "add"; "link"; "chmod"]
  | _ => False
  end.

(** The flow [main] selects, with the arguments as [main] converts them. *)
Definition selected_flow {Manifest} {ops : ManifestOps Manifest}
    (host : Host Manifest) (args : Args) : M unit :=
  let ipsw := realpath host (arg_ipsw args) in
  let blob := realpath host (arg_blob args) in
  let boardconfig := Py.lower (arg_boardconfig args) in
  let extra_ramdisk :=
    if truthy_opt (arg_extra_ramdisk args)
    then option_map (realpath host) (arg_extra_ramdisk args) else None in
  let boot_arguments :=
    match arg_boot_arguments args with
    | Some s => if Py.truthy s then s else EmptyString
    | None => EmptyString
    end in
  if arg_restore args
  then prep_restore host ipsw blob boardconfig (arg_kpp args)
                    (arg_legacy args) (arg_skip_baseband args) extra_ramdisk
  else prep_boot host ipsw blob boardconfig (arg_kpp args)
                 (arg_identifier args) (arg_legacy args) extra_ramdisk
                 boot_arguments.

(** The file [os.remove(p)] unlinks: the links in the directory part of [p]
    are followed, the last component is not. *)
Definition unlinked {Manifest} (host : Host Manifest) (p : string) : string :=
  Path.join2 (realpath host (Path.dirname p)) (Path.basename p).

(** An action other than [shutil.move]. *)
Definition not_move (e : Event) : Prop :=
  match e with Move _ _ => False | _ => True end.

(** A piece of the script that, whenever it does not return, has moved
    nothing, or has ended as [late] says. *)
Definition unmoved_or {A} (late : Outcome A * World -> Prop) (m : M A) : Prop :=
  forall w, match fst (m w) with
            | Ret _ => True
            | _ => (exists l, log (snd (m w)) = List.app l (log w)
                              /\ Forall not_move l)
                   \/ late (m w)
            end.

(** A run that ended with status 1 at the failed [command], after [tmp] had
    been moved into [root]. *)
Definition stopped_after_move (tmp root : string) (command : list string)
    (r : Outcome unit * World) : Prop :=
  fst r = Exit 1
  /\ exists between earlier,
       log (snd r)
       = Stderr (failure_line command) :: Exec command
         :: List.app between (Move tmp root :: earlier).

(** An action that is neither the run of [command], nor a question to the
    operator, nor the removal of a directory tree. *)
Definition other_than (command : list string) (e : Event) : Prop :=
  match e with
  | Exec argv => argv <> command
  | Input _ | Rmtree _ => False
  | _ => True
  end.

(** A piece of the script that, whenever it returns, has added the actions
    [tail] last, on top of actions that all satisfy [P]. *)
Definition closes {A} (P : Event -> Prop) (tail : list Event) (m : M A) : Prop :=
  forall w a, fst (m w) = Ret a ->
    exists earlier,
      log (snd (m w)) = List.app tail (List.app earlier (log w))
      /\ Forall P earlier.

(** The programs BootFlow runs by name. *)
Definition boot_tools : list string :=
  ["img4"; "iBoot64Patcher"; "img4tool"; "Kernel64Patcher"; "tar"; "hfsplus";
   "hdiutil"].

(** An action of BootFlow: a command whose program is one of [boot_tools] or
    the Python interpreter running the module [pyimg4], or anything that is
    not a command, a question to the operator or the removal of a directory
    tree. *)
Definition boot_action {Manifest} (host : Host Manifest) (e : Event) : Prop :=
  match e with
  | Exec (prog :: args) =>
      In prog boot_tools
      \/ (prog = sys_executable host /\ exists rest, args = "-m" :: "pyimg4" :: rest)
  | Exec [] | Input _ | Rmtree _ => False
  | _ => True
  end.

(** ** The build manifest of the spec *)

(** Modelled from the spec: [src/manifest.py] is not among the sources.
    Spec 3: a manifest is a sequence of build identities and a build version;
    an identity is a board key and a mapping from component names to paths. *)
Record BuildIdentity : Type := {
  boardConfig : string;
  components : list (string * string)
}.

Record BuildManifest : Type := {
  identities : list BuildIdentity;
  productBuildVersion : option string
}.

Fixpoint assoc (k : string) (l : list (string * string)) : option string :=
  match l with
  | [] => None
  | (k', v) :: r => if String.eqb k k' then Some v else assoc k r
  end.

(** Modelled from the spec: [resolveComponent] of spec 4.1, a case-insensitive
    exact match of the board config against each identity's board key, then
    the mapped path of the component; nothing when either is absent. *)
Definition resolveComponent (m : BuildManifest) (boardconfig component : string)
  : option string :=
  match find (fun i => String.eqb (Py.lower (boardConfig i)) (Py.lower boardconfig))
             (identities m) with
  | Some i => assoc component (components i)
  | None => None
  end.

#[export] Instance spec_manifest : ManifestOps BuildManifest := {
  get_comp := resolveComponent;
  getProductBuildVersion := productBuildVersion
}.

(** ** A concrete host *)

Module Demo.

Definition manifest : BuildManifest :=
  {| identities :=
       [ {| boardConfig := "n71ap";
            components := [("RestoreRamDisk", "090-2222-200.dmg")] |};
         {| boardConfig := "d321ap";
            components :=
              [ ("RestoreRamDisk", "090-1111-100.dmg");
                ("RestoreKernelCache", "kernelcache.release.d321");
                ("KernelCache", "kernelcache.release.d321");
                ("iBSS", "Firmware/dfu/iBSS.d321.RELEASE.im4p");
                ("iBEC", "Firmware/dfu/iBEC.d321.RELEASE.im4p");
                ("DeviceTree", "Firmware/all_flash/DeviceTree.d321ap.im4p");
                ("StaticTrustCache", "Firmware/090-1111-100.dmg.trustcache") ] |} ];
     productBuildVersion := Some "19H12" |}.

(** The same bundle with the first-stage loader missing for the board. *)
Definition manifest_no_ibss : BuildManifest :=
  {| identities :=
       [ {| boardConfig := "d321ap";
            components :=
              [ ("RestoreRamDisk", "090-1111-100.dmg");
                ("RestoreKernelCache", "kernelcache.release.d321");
                ("KernelCache", "kernelcache.release.d321");
                ("iBEC", "Firmware/dfu/iBEC.d321.RELEASE.im4p");
                ("DeviceTree", "Firmware/all_flash/DeviceTree.d321ap.im4p");
                ("StaticTrustCache", "Firmware/090-1111-100.dmg.trustcache") ] |} ];
     productBuildVersion := Some "19H12" |}.

Definition root : string := "/tmp/restore-x/ramdisk".

(** The staged tree: a setuid tool and a plain helper in [usr/sbin], a link
    to a library in [usr/bin], and [etc], a link to the directory
    [private/etc]. *)
Definition walk_files : list string :=
  [ root ++ "/"; root ++ "/usr"; root ++ "/usr/sbin"; root ++ "/usr/sbin/tool";
    root ++ "/usr/sbin/helper"; root ++ "/usr/bin"; root ++ "/usr/bin/foo";
    root ++ "/usr/lib"; root ++ "/usr/lib/libfoo.so"; root ++ "/etc";
    root ++ "/private"; root ++ "/private/etc" ].

Definition walk_dirs : list string :=
  [ root ++ "/usr/"; root ++ "/usr/sbin/"; root ++ "/usr/bin/";
    root ++ "/usr/lib/"; root ++ "/etc/"; root ++ "/private/";
    root ++ "/private/etc/" ].

Definition is_one_of (p : string) (l : list string) : bool :=
  existsb (String.eqb p) l.

Definition stat_of (p : string) : N :=
  if String.eqb p (root ++ "/usr/sbin/tool") then Py.of_oct "104755"
  else if String.eqb p (root ++ "/usr/sbin/helper") then Py.of_oct "100644"
  else if String.eqb p (root ++ "/usr/lib/libfoo.so") then Py.of_oct "100644"
  else if is_one_of p [root ++ "/usr/bin/foo"; root ++ "/etc"]
  then Py.of_oct "120777"
  else Py.of_oct "040755".

Definition always (code : Z) : list Event -> list string -> Z * string :=
  fun _ _ => (code, EmptyString).

Definition host (linux : bool) (r : list Event -> list string -> Z * string)
    (m : BuildManifest) : Host BuildManifest :=
  {| LINUX := linux;
     ROOT := "/opt/sunstorm";
     cwd := "/home/user";
     sys_executable := "/usr/bin/python3";
     which := fun _ => true;
     run := r;
     path_exists := fun _ _ => true;
     realpath := fun p => p;
     mkdtemp := fun prefix => "/tmp/" ++ prefix ++ "x";
     glob := fun pattern =>
       if String.eqb pattern (root ++ "/**") then walk_files
       else if String.eqb pattern (root ++ "/*/**/") then walk_dirs
       else [];
     lstat_mode := stat_of;
     isdir := fun p =>
       is_one_of p [ root ++ "/"; root ++ "/usr"; root ++ "/usr/sbin";
                     root ++ "/usr/bin"; root ++ "/usr/lib"; root ++ "/etc";
                     root ++ "/private"; root ++ "/private/etc" ];
     islink := fun p => is_one_of p [root ++ "/usr/bin/foo"; root ++ "/etc"];
     readlink := fun p =>
       if String.eqb p (root ++ "/etc") then "private/etc" else "../lib/libfoo.so";
     load_manifest := fun _ => Some m;
     get_keys := fun _ _ _ => ("aa11", "bb22", "cc33", "dd44");
     input := fun _ => "n" |}.

(** A host whose key service knows nothing about the device. *)
Definition host_no_keys (linux : bool) (m : BuildManifest) : Host BuildManifest :=
  {| LINUX := linux; ROOT := ROOT (host linux (always 0) m);
     cwd := cwd (host linux (always 0) m);
     sys_executable := sys_executable (host linux (always 0) m);
     which := which (host linux (always 0) m);
     run := always 0;
     path_exists := path_exists (host linux (always 0) m);
     realpath := realpath (host linux (always 0) m);
     mkdtemp := mkdtemp (host linux (always 0) m);
     glob := glob (host linux (always 0) m);
     lstat_mode := lstat_mode (host linux (always 0) m);
     isdir := isdir (host linux (always 0) m);
     islink := islink (host linux (always 0) m);
     readlink := readlink (host linux (always 0) m);
     load_manifest := load_manifest (host linux (always 0) m);
     get_keys := fun _ _ _ => (EmptyString, EmptyString, EmptyString, EmptyString);
     input := input (host linux (always 0) m) |}.

Definition restore_args (board : string) (legacy : bool) (extra : option string)
  : Args :=
  {| arg_ipsw := "/home/user/fw.ipsw"; arg_blob := "/home/user/blob.shsh2";
     arg_boardconfig := board; arg_kpp := false; arg_identifier := None;
     arg_legacy := legacy; arg_skip_baseband := false;
     arg_extra_ramdisk := extra; arg_boot_arguments := None;
     arg_boot := false; arg_restore := true |}.

Definition boot_args (board : string) (legacy : bool) : Args :=
  {| arg_ipsw := "/home/user/fw.ipsw"; arg_blob := "/home/user/blob.shsh2";
     arg_boardconfig := board; arg_kpp := false;
     arg_identifier := Some "iPhone6,1";
     arg_legacy := legacy; arg_skip_baseband := false;
     arg_extra_ramdisk := None; arg_boot_arguments := None;
     arg_boot := true; arg_restore := false |}.

(** The bundle without a trust cache for the board. *)
Definition manifest_no_trust_cache : BuildManifest :=
  {| identities :=
       [ {| boardConfig := "n71ap";
            components := [("RestoreRamDisk", "090-2222-200.dmg")] |};
         {| boardConfig := "d321ap";
            components :=
              [ ("RestoreRamDisk", "090-1111-100.dmg");
                ("RestoreKernelCache", "kernelcache.release.d321");
                ("KernelCache", "kernelcache.release.d321");
                ("iBSS", "Firmware/dfu/iBSS.d321.RELEASE.im4p");
                ("iBEC", "Firmware/dfu/iBEC.d321.RELEASE.im4p");
                ("DeviceTree", "Firmware/all_flash/DeviceTree.d321ap.im4p") ] |} ];
     productBuildVersion := Some "19H12" |}.

Definition boot_args_without_identifier : Args :=
  {| arg_ipsw := "/home/user/fw.ipsw"; arg_blob := "/home/user/blob.shsh2";
     arg_boardconfig := "d321ap"; arg_kpp := false; arg_identifier := None;
     arg_legacy := false; arg_skip_baseband := false;
     arg_extra_ramdisk := None; arg_boot_arguments := None;
     arg_boot := true; arg_restore := false |}.

(** A working directory in which the extra ramdisk has left
    [ramdisk/backup.im4p], a link to the directory [/home/user/documents]
    that holds [thesis.txt]; the recursive walk goes through the link. *)
Definition pruned_walk : list string :=
  [ "/tmp/restore-x/BuildManifest.plist"; "/tmp/restore-x/ramdisk";
    "/tmp/restore-x/ramdisk.im4p"; "/tmp/restore-x/krnl.im4p";
    "/tmp/restore-x/ramdisk/backup.im4p";
    "/tmp/restore-x/ramdisk/backup.im4p/thesis.txt" ].

Definition linked_host : Host BuildManifest :=
  {| LINUX := true;
     ROOT := "/opt/sunstorm";
     cwd := "/home/user";
     sys_executable := "/usr/bin/python3";
     which := fun _ => true;
     run := always 0;
     path_exists := fun _ _ => true;
     realpath := fun p =>
       if String.eqb p "/tmp/restore-x/ramdisk/backup.im4p"
       then "/home/user/documents"
       else if String.eqb p "/tmp/restore-x/ramdisk/backup.im4p/thesis.txt"
       then "/home/user/documents/thesis.txt"
       else p;
     mkdtemp := fun prefix => "/tmp/" ++ prefix ++ "x";
     glob := fun pattern =>
       if String.eqb pattern "/tmp/restore-x/**/*" then pruned_walk else [];
     lstat_mode := fun _ => Py.of_oct "100644";
     isdir := fun p =>
       is_one_of p ["/tmp/restore-x/ramdisk"; "/tmp/restore-x/ramdisk/backup.im4p"];
     islink := fun p => String.eqb p "/tmp/restore-x/ramdisk/backup.im4p";
     readlink := fun _ => "/home/user/documents";
     load_manifest := fun _ => Some manifest;
     get_keys := fun _ _ _ => ("aa11", "bb22", "cc33", "dd44");
     input := fun _ => "n" |}.

(** A host on which every command succeeds but [futurerestore], and whose
    operator answers [y]. *)
Definition restore_fails : list Event -> list string -> Z * string :=
  fun _ argv =>
    match argv with
    | prog :: _ => if String.eqb prog "futurerestore" then (1%Z, EmptyString)
                   else (0%Z, EmptyString)
    | [] => (0%Z, EmptyString)
    end.

Definition eager_host : Host BuildManifest :=
  {| LINUX := true; ROOT := ROOT (host true restore_fails manifest);
     cwd := cwd (host true restore_fails manifest);
     sys_executable := sys_executable (host true restore_fails manifest);
     which := which (host true restore_fails manifest);
     run := restore_fails;
     path_exists := path_exists (host true restore_fails manifest);
     realpath := realpath (host true restore_fails manifest);
     mkdtemp := mkdtemp (host true restore_fails manifest);
     glob := glob (host true restore_fails manifest);
     lstat_mode := lstat_mode (host true restore_fails manifest);
     isdir := isdir (host true restore_fails manifest);
     islink := islink (host true restore_fails manifest);
     readlink := readlink (host true restore_fails manifest);
     load_manifest := load_manifest (host true restore_fails manifest);
     get_keys := get_keys (host true restore_fails manifest);
     input := fun _ => "y" |}.

End Demo.

(** * Properties *)

Example relpath_tool :
  Path.relpath "/" "/tmp/restore-x/ramdisk/usr/sbin/tool" "/tmp/restore-x/ramdisk"
  = "usr/sbin/tool".
Proof. reflexivity. Qed.

Example relpath_dir :
  Path.relpath "/" "/tmp/restore-x/ramdisk/usr/sbin/" "/tmp/restore-x/ramdisk"
  = "usr/sbin".
Proof. reflexivity. Qed.

Example relpath_root :
  Path.relpath "/" "/tmp/restore-x/ramdisk/" "/tmp/restore-x/ramdisk" = ".".
Proof. reflexivity. Qed.

Example dirname_tool : Path.dirname "usr/sbin/tool" = "usr/sbin".
Proof. reflexivity. Qed.

Example dirname_top : Path.dirname "tool" = EmptyString.
Proof. reflexivity. Qed.

Example oct_setuid : Py.oct (Py.of_oct "104755") = "0o104755".
Proof. reflexivity. Qed.

Example last3_setuid : Py.last_chars 3 (Py.oct (Py.of_oct "104755")) = "755".
Proof. reflexivity. Qed.

Example int_o77 : Py.int_ (Py.last_chars 3 (Py.oct 63)) = None.
Proof. reflexivity. Qed.


(** ** Strings and paths *)

Section StringFacts.
Import Py Path.

Lemma chars_app (a b : string) :
  chars (a ++ b) = List.app (chars a) (chars b).
Proof.
  induction a as [|c a IH]; simpl; [reflexivity|]. unfold chars in *; simpl.
  now rewrite IH.
Qed.

Lemma chars_str (l : list ascii) : chars (str l) = l.
Proof. apply list_ascii_of_string_of_list_ascii. Qed.

Lemma str_chars (s : string) : str (chars s) = s.
Proof. apply string_of_list_ascii_of_string. Qed.

Lemma prefix_l_app (p l : list ascii) : prefix_l p (List.app p l) = true.
Proof.
  induction p as [|c p IH]; simpl; [reflexivity|].
  now rewrite Ascii.eqb_refl, IH.
Qed.

Lemma endswith_app (h t : string) : endswith (h ++ t) t = true.
Proof.
  unfold endswith. rewrite chars_app, rev_app_distr. apply prefix_l_app.
Qed.

Lemma rsplit_app (l : list ascii) :
  List.app (fst (rsplit l)) (snd (rsplit l)) = l.
Proof.
  induction l as [|c l IH]; simpl; [reflexivity|].
  destruct (rsplit l) as [h t]; simpl in *.
  destruct h as [|x h]; simpl in *.
  - destruct (is_sep c); simpl; now rewrite IH.
  - now rewrite IH.
Qed.

(** A path ends with its own base name. *)
Lemma endswith_basename (p : string) : endswith p (basename p) = true.
Proof.
  unfold basename.
  rewrite <- (str_chars p) at 1.
  rewrite <- (rsplit_app (chars p)) at 1.
  unfold endswith. rewrite !chars_str, rev_app_distr. apply prefix_l_app.
Qed.

Lemma startswith_spec (s p : string) :
  startswith s p = true <-> exists rest, s = p ++ rest.
Proof.
  revert s; induction p as [|c p IH]; intros s; simpl.
  - split; [intros _; now exists s | reflexivity].
  - destruct s as [|d s].
    + split; [discriminate | intros [r H]; discriminate].
    + rewrite andb_true_iff, Ascii.eqb_eq, IH. split.
      * intros [-> [r ->]]. now exists r.
      * intros [r H]. injection H as -> ->. split; [reflexivity | now exists r].
Qed.

End StringFacts.

(** ** The permission rule *)

Section ModeFacts.
Import Py.

Lemma skipn_app_length {A} (a b : list A) :
  skipn (List.length (List.app a b) - List.length b) (List.app a b) = b.
Proof.
  rewrite length_app.
  replace (List.length a + List.length b - List.length b)%nat
    with (List.length a) by lia.
  induction a as [|x a IH]; simpl; [reflexivity | exact IH].
Qed.

Lemma oct_digits_S (f : nat) (n : N) :
  oct_digits (S f) n
  = digit_char (n mod 8)
    :: (if (n / 8 =? 0)%N then [] else oct_digits f (n / 8)).
Proof. reflexivity. Qed.

(** The last three characters of [oct m] are the three low octal digits, as
    soon as [m] has three of them. *)
Lemma last3_oct (m : N) :
  (64 <= m)%N ->
  last_chars 3 (oct m)
  = str [digit_char ((m / 64) mod 8); digit_char ((m / 8) mod 8);
         digit_char (m mod 8)].
Proof.
  intros Hm. unfold oct, last_chars.
  assert (Hlog : (6 <= N.log2 m)%N).
  { change 6%N with (N.log2 64). now apply N.log2_le_mono. }
  destruct (N.to_nat (N.log2 m)) as [|[|k]] eqn:Ek; try lia.
  rewrite !oct_digits_S.
  assert (H8 : (m / 8 <> 0)%N).
  { intros E. assert (m < 8)%N by (apply N.div_small_iff; [lia | exact E]). lia. }
  assert (H64 : (m / 8 / 8 <> 0)%N).
  { rewrite N.Div0.div_div. change (8 * 8)%N with 64%N.
    intros E. assert (m < 64)%N by (apply N.div_small_iff; [lia | exact E]). lia. }
  destruct (N.eqb_spec (m / 8) 0) as [E|_]; [contradiction|].
  destruct (N.eqb_spec (m / 8 / 8) 0) as [E|_]; [contradiction|].
  rewrite (N.Div0.div_div m 8 8). change (8 * 8)%N with 64%N.
  set (rest := if (m / 64 / 8 =? 0)%N then [] else oct_digits k (m / 64 / 8)).
  rewrite chars_app, chars_str. simpl rev.
  rewrite <- !app_assoc. simpl List.app.
  change ("0"%char :: "o"%char
          :: List.app (rev rest)
               [digit_char ((m / 64) mod 8); digit_char ((m / 8) mod 8);
                digit_char (m mod 8)])
    with (List.app ("0"%char :: "o"%char :: rev rest)
            [digit_char ((m / 64) mod 8); digit_char ((m / 8) mod 8);
             digit_char (m mod 8)]).
  change 3%nat with (List.length
            [digit_char ((m / 64) mod 8); digit_char ((m / 8) mod 8);
             digit_char (m mod 8)]).
  now rewrite skipn_app_length.
Qed.

Lemma digit_val_char (d : N) :
  (d < 8)%N -> digit_val (digit_char d) = Some (Z.of_N d).
Proof.
  intros H.
  assert (C : (d = 0 \/ d = 1 \/ d = 2 \/ d = 3 \/ d = 4 \/ d = 5 \/ d = 6
               \/ d = 7)%N) by lia.
  repeat (destruct C as [-> | C]; [reflexivity|]). now subst.
Qed.

Lemma int_three_digits (a b c : N) :
  (a < 8)%N -> (b < 8)%N -> (c < 8)%N ->
  int_ (str [digit_char a; digit_char b; digit_char c])
  = Some (100 * Z.of_N a + 10 * Z.of_N b + Z.of_N c)%Z.
Proof.
  intros Ha Hb Hc. unfold int_. rewrite chars_str. cbn [int_l].
  rewrite (digit_val_char a Ha). cbn iota.
  rewrite (digit_val_char b Hb). cbn iota.
  rewrite (digit_val_char c Hc). cbn iota.
  f_equal. lia.
Qed.

(** [int(oct(st_mode)[-3:])] is the decimal reading of the three low octal
    digits. *)
Lemma int_last3_oct (m : N) :
  (64 <= m)%N ->
  int_ (last_chars 3 (oct m))
  = Some (100 * Z.of_N ((m / 64) mod 8) + 10 * Z.of_N ((m / 8) mod 8)
          + Z.of_N (m mod 8))%Z.
Proof.
  intros Hm. rewrite (last3_oct m Hm).
  apply int_three_digits; apply N.mod_lt; discriminate.
Qed.

(** Reading the digits in base ten orders the modes as their low nine bits
    do. *)
Lemma decimal_reading_below_755 (m : N) :
  (N.land m o777 < o755)%N <->
  (100 * Z.of_N ((m / 64) mod 8) + 10 * Z.of_N ((m / 8) mod 8)
   + Z.of_N (m mod 8) < 755)%Z.
Proof.
  change o777 with (N.ones 9). rewrite N.land_ones.
  change (2 ^ 9)%N with 512%N. unfold o755.
  zify. Z.to_euclidean_division_equations. lia.
Qed.

Lemma file_type_three_digits (m : N) : has_file_type m -> (64 <= m)%N.
Proof. unfold has_file_type, S_IFIFO. lia. Qed.

Lemma chmod_mode_total (dirname : string) (m : N) :
  (64 <= m)%N -> exists p, chmod_mode dirname m = Some p.
Proof.
  intros Hm. unfold chmod_mode.
  destruct (endswith_any dirname _); [|eauto].
  rewrite (int_last3_oct m Hm). eauto.
Qed.

Lemma chmod_mode_escalates (dirname : string) (m : N) :
  endswith_any dirname ["bin"; "sbin"; "libexec"] = true ->
  (64 <= m)%N ->
  (N.land m o777 < o755)%N ->
  chmod_mode dirname m = Some "100755".
Proof.
  intros Hd Hm Hlt. unfold chmod_mode. rewrite Hd, (int_last3_oct m Hm).
  apply decimal_reading_below_755 in Hlt.
  apply Z.ltb_lt in Hlt. now rewrite Hlt.
Qed.

(** What the rule does otherwise: the three low digits, never more. *)
Lemma chmod_mode_keeps_three_digits (dirname : string) (m : N) :
  (64 <= m)%N ->
  (o755 <= N.land m o777)%N ->
  chmod_mode dirname m = Some (last_chars 3 (oct m)).
Proof.
  intros Hm Hge. unfold chmod_mode.
  destruct (endswith_any dirname _); [|reflexivity].
  rewrite (int_last3_oct m Hm).
  destruct (Z.ltb_spec (100 * Z.of_N ((m / 64) mod 8)
                        + 10 * Z.of_N ((m / 8) mod 8) + Z.of_N (m mod 8)) 755)
    as [Hlt|_]; [|reflexivity].
  apply decimal_reading_below_755 in Hlt. lia.
Qed.

(** A directory named [bin], [sbin] or [libexec] passes the test the script
    makes on the directory part of the path. *)
Lemma parent_name_endswith (dirname : string) :
  In (Path.basename dirname) ["bin"; "sbin"; "libexec"] ->
  endswith_any dirname ["bin"; "sbin"; "libexec"] = true.
Proof.
  intros Hin. unfold endswith_any. apply existsb_exists.
  exists (Path.basename dirname). split; [exact Hin|].
  apply endswith_basename.
Qed.

End ModeFacts.

(** ** Tolerant commands and the synthesis loops *)

Section Tolerance.

Context {Manifest : Type}.
Variable host : Host Manifest.

Lemma issued_nil (w : World) : issued host [] w w.
Proof. repeat split; reflexivity. Qed.

Lemma issued_app (c1 c2 : list (list string)) (w w1 w2 : World) :
  issued host c1 w w1 -> issued host c2 w1 w2 ->
  issued host (List.app c1 c2) w w2.
Proof.
  intros (E1 & A1 & R1 & S1) (E2 & A2 & R2 & S2). repeat split.
  - rewrite E2, E1, rev_app_distr, app_assoc. reflexivity.
  - congruence.
  - congruence.
  - intros H. rewrite (S2 H), (S1 H). reflexivity.
Qed.

(** [execute(..., ignore_errors=True)] always returns. *)
Lemma execute_tolerant (argv : list string) (w : World) :
  exists w', execute host argv true w = (Ret (snd (run host (log w) argv)), w')
             /\ issued host [argv] w w'.
Proof.
  unfold execute, bind, get_log, emit, print_error, ret, DEBUG. simpl.
  destruct (fst (run host (log w) argv) >? 0)%Z eqn:E; simpl.
  - eexists; split; [reflexivity|]. repeat split; simpl; try reflexivity.
    intros H. specialize (H (log w) argv). apply Z.gtb_lt in E. lia.
  - eexists; split; [reflexivity|]. repeat split; reflexivity.
Qed.

Lemma sync_dir_runs (work directory : string) (w : World) :
  exists w', sync_dir host work directory w = (Ret tt, w')
             /\ issued host [["hfsplus"; work ++ "/ramdisk.dmg"; "mkdir";
                         image_path host work directory]] w w'.
Proof.
  unfold sync_dir, bind.
  destruct (execute_tolerant
              ["hfsplus"; work ++ "/ramdisk.dmg"; "mkdir";
               image_path host work directory] w) as (w' & -> & H).
  exists w'. split; [reflexivity | exact H].
Qed.

Lemma sync_file_runs (work file : string) (w : World) :
  has_file_type (lstat_mode host file) ->
  exists w', sync_file host work file w = (Ret tt, w')
             /\ issued host (file_commands host work file) w w'.
Proof.
  intros Hm. unfold sync_file, file_commands.
  destruct (isdir host file).
  - exists w. split; [reflexivity | apply issued_nil].
  - destruct (chmod_mode_total
                (Path.dirname (Path.relpath (cwd host) file (work ++ "/ramdisk")))
                (lstat_mode host file) (file_type_three_digits _ Hm))
      as [p Hp].
    rewrite Hp. unfold bind at 1. unfold ret at 1. unfold bind at 1.
    destruct (islink host file).
    + destruct (execute_tolerant
                  ["hfsplus"; work ++ "/ramdisk.dmg"; "link";
                   image_path host work file; readlink host file] w)
        as (w1 & -> & H1).
      unfold bind.
      destruct (execute_tolerant
                  ["hfsplus"; work ++ "/ramdisk.dmg"; "chmod"; p;
                   image_path host work file] w1) as (w2 & -> & H2).
      exists w2. split; [reflexivity|].
      exact (issued_app [_] [_] _ _ _ H1 H2).
    + destruct (execute_tolerant
                  ["hfsplus"; work ++ "/ramdisk.dmg"; "add"; file;
                   image_path host work file] w) as (w1 & -> & H1).
      unfold bind.
      destruct (execute_tolerant
                  ["hfsplus"; work ++ "/ramdisk.dmg"; "chmod"; p;
                   image_path host work file] w1) as (w2 & -> & H2).
      exists w2. split; [reflexivity|].
      exact (issued_app [_] [_] _ _ _ H1 H2).
Qed.

Lemma flat_map_singleton {A B} (f : A -> B) (l : list A) :
  flat_map (fun x => [f x]) l = map f l.
Proof. induction l as [|x l IH]; simpl; [reflexivity | now rewrite IH]. Qed.

(** A loop whose body always returns runs over every element. *)
Lemma for_runs {A} (P : A -> Prop) (body : A -> M unit)
    (cmds : A -> list (list string)) :
  (forall x w, P x ->
     exists w', body x w = (Ret tt, w') /\ issued host (cmds x) w w') ->
  forall xs w, Forall P xs ->
    exists w', for_ xs body w = (Ret tt, w')
               /\ issued host (flat_map cmds xs) w w'.
Proof.
  intros Hbody xs. induction xs as [|x xs IH]; intros w HP.
  - exists w. split; [reflexivity | apply issued_nil].
  - inversion HP as [|? ? Hx Hxs]; subst.
    destruct (Hbody x w Hx) as (w1 & E1 & I1).
    destruct (IH w1 Hxs) as (w2 & E2 & I2).
    exists w2. simpl. unfold bind. rewrite E1. split; [exact E2|].
    exact (issued_app _ _ _ _ _ I1 I2).
Qed.

(** The synthesis with its precondition met: it returns, and the commands it
    ran are [sync_commands], whatever their exit codes were. *)
Lemma sync_runs (work : string) (w : World) :
  path_exists host (log w) (work ++ "/ramdisk") = true ->
  path_exists host (log w) (work ++ "/ramdisk.dmg") = true ->
  Forall (fun f => has_file_type (lstat_mode host f))
         (glob host (work ++ "/ramdisk/**")) ->
  exists w', linux_hfsplus_sync host work w = (Ret tt, w')
             /\ issued host (sync_commands host work) w w'.
Proof.
  intros E1 E2 Hm. unfold linux_hfsplus_sync, os_path_exists.
  unfold bind at 1. unfold bind at 1. rewrite E1, E2. simpl negb. cbv iota.
  unfold bind at 1. unfold ret at 1.
  destruct (for_runs (fun _ => True) (sync_dir host work)
              (fun d => [["hfsplus"; work ++ "/ramdisk.dmg"; "mkdir";
                          image_path host work d]])
              (fun x w0 _ => sync_dir_runs work x w0)
              (glob host (work ++ "/ramdisk/*/**/")) w) as (w1 & F1 & I1).
  { apply Forall_forall. intros; exact I. }
  unfold bind. rewrite F1.
  destruct (for_runs (fun f => has_file_type (lstat_mode host f))
              (sync_file host work) (file_commands host work)
              (fun x w0 H => sync_file_runs work x w0 H)
              (glob host (work ++ "/ramdisk/**")) w1 Hm) as (w2 & F2 & I2).
  exists w2. split; [exact F2|].
  unfold sync_commands.
  replace (map (fun d => ["hfsplus"; work ++ "/ramdisk.dmg"; "mkdir";
                          image_path host work d])
               (glob host (work ++ "/ramdisk/*/**/")))
    with (flat_map (fun d => [["hfsplus"; work ++ "/ramdisk.dmg"; "mkdir";
                               image_path host work d]])
                   (glob host (work ++ "/ramdisk/*/**/"))).
  - exact (issued_app _ _ _ _ _ I1 I2).
  - apply flat_map_singleton.
Qed.

(** The synthesis with its precondition violated: it reports and exits with
    status 1 before any command. *)
Lemma sync_precondition_fatal (work : string) (w : World) :
  path_exists host (log w) (work ++ "/ramdisk")
  && path_exists host (log w) (work ++ "/ramdisk.dmg") = false ->
  linux_hfsplus_sync host work w
  = (Exit 1,
     {| log := Stderr ("[!] Error: Missing " ++ work ++ "/ramdisk or " ++ work
                       ++ "/ramdisk.dmg (this is a bug)") :: log w;
        atexit := atexit w |}).
Proof.
  intros E. unfold linux_hfsplus_sync, os_path_exists.
  unfold bind at 1. unfold bind at 1. rewrite E. reflexivity.
Qed.

Lemma issued_execs (cmds : list (list string)) (w w' : World) :
  issued host cmds w w' -> execs (log w') = List.app (execs (log w)) cmds.
Proof.
  intros (E & _). unfold execs. rewrite E, rev_app_distr, rev_involutive.
  reflexivity.
Qed.

End Tolerance.

(** ** Image synthesis *)

(** C9.  Every per-entry operation of both synthesis passes tolerates
    failure: whatever exit codes the external tool returns, the synthesis
    returns normally once its precondition is met and runs the commands of
    every walked directory and path; the only exit is the precondition check
    (staging root and target image both exist), with status 1 and before any
    command.  The walked paths carry the modes of a real [lstat]. *)
Theorem sync_tolerates_command_failures {Manifest : Type} (host : Host Manifest)
    (r : list Event -> list string -> Z * string) (work : string) (w : World) :
  Forall (fun f => has_file_type (lstat_mode host f))
         (glob host (work ++ "/ramdisk/**")) ->
  let ready := path_exists host (log w) (work ++ "/ramdisk")
               && path_exists host (log w) (work ++ "/ramdisk.dmg") in
  exists w',
    linux_hfsplus_sync (with_run host r) work w
    = (if ready then Ret tt else Exit 1, w')
    /\ execs (log w')
       = List.app (execs (log w)) (if ready then sync_commands host work else []).
Proof.
  intros Hm ready. subst ready.
  destruct (path_exists host (log w) (work ++ "/ramdisk")) eqn:E1;
    [destruct (path_exists host (log w) (work ++ "/ramdisk.dmg")) eqn:E2|].
  - destruct (sync_runs (with_run host r) work w E1 E2 Hm) as (w' & E & I).
    exists w'. split; [exact E|]. simpl andb. cbv iota.
    exact (issued_execs (with_run host r) _ _ _ I).
  - eexists. split.
    + apply (sync_precondition_fatal (with_run host r)). simpl.
      now rewrite E1, E2.
    + simpl. now rewrite app_nil_r.
  - eexists. split.
    + apply (sync_precondition_fatal (with_run host r)). simpl.
      now rewrite E1.
    + simpl. now rewrite app_nil_r.
Qed.

Lemma sync_tolerates_command_failures_witness :
  Forall (fun f => has_file_type
                     (lstat_mode (Demo.host true (Demo.always 0) Demo.manifest) f))
         (glob (Demo.host true (Demo.always 0) Demo.manifest)
               ("/tmp/restore-x" ++ "/ramdisk/**"))
  /\ exists w',
       linux_hfsplus_sync
         (with_run (Demo.host true (Demo.always 0) Demo.manifest) (Demo.always 1))
         "/tmp/restore-x" initial
       = (Ret tt, w')
       /\ execs (log w')
          = sync_commands (Demo.host true (Demo.always 0) Demo.manifest)
                          "/tmp/restore-x".
Proof.
  assert (H : Forall (fun f => has_file_type
                     (lstat_mode (Demo.host true (Demo.always 0) Demo.manifest) f))
         (glob (Demo.host true (Demo.always 0) Demo.manifest)
               ("/tmp/restore-x" ++ "/ramdisk/**"))).
  { repeat (constructor; [unfold has_file_type; vm_compute; discriminate|]).
    constructor. }
  split; [exact H|].
  exact (sync_tolerates_command_failures
           (Demo.host true (Demo.always 0) Demo.manifest) (Demo.always 1)
           "/tmp/restore-x" initial H).
Defined.

(** C6.  For every walked path that is placed (a regular file, or a link
    that is not skipped as a directory) whose parent directory is named
    [bin], [sbin] or [libexec] and whose captured mode is below 0755 in its
    permission bits, the synthesis issues the set-permissions command with
    mode [100755] on the entry's destination path, whatever the exit codes of
    the commands before it. *)
Theorem bin_entries_escalated_to_100755 {Manifest : Type} (host : Host Manifest)
    (r : list Event -> list string -> Z * string) (work file : string)
    (w : World) :
  path_exists host (log w) (work ++ "/ramdisk") = true ->
  path_exists host (log w) (work ++ "/ramdisk.dmg") = true ->
  Forall (fun f => has_file_type (lstat_mode host f))
         (glob host (work ++ "/ramdisk/**")) ->
  In file (glob host (work ++ "/ramdisk/**")) ->
  isdir host file = false ->
  In (Path.basename
        (Path.dirname (Path.relpath (cwd host) file (work ++ "/ramdisk"))))
     ["bin"; "sbin"; "libexec"] ->
  (N.land (lstat_mode host file) o777 < o755)%N ->
  In ["hfsplus"; work ++ "/ramdisk.dmg"; "chmod"; "100755";
      image_path host work file]
     (execs (log (snd (linux_hfsplus_sync (with_run host r) work w)))).
Proof.
  intros E1 E2 Hm Hin Hdir Hparent Hweak.
  destruct (sync_runs (with_run host r) work w E1 E2 Hm) as (w' & E & I).
  rewrite E. simpl snd. rewrite (issued_execs _ _ _ _ I).
  apply in_or_app. right. unfold sync_commands. apply in_or_app. right.
  apply in_flat_map. exists file. split; [exact Hin|].
  unfold file_commands. simpl isdir. rewrite Hdir.
  assert (Hfile : has_file_type (lstat_mode host file)).
  { rewrite Forall_forall in Hm. now apply Hm. }
  simpl cwd. simpl lstat_mode.
  rewrite (chmod_mode_escalates _ _ (parent_name_endswith _ Hparent)
             (file_type_three_digits _ Hfile) Hweak).
  right. left. reflexivity.
Qed.

Lemma bin_entries_escalated_to_100755_witness :
  In ["hfsplus"; "/tmp/restore-x" ++ "/ramdisk.dmg"; "chmod"; "100755";
      "/usr/sbin/helper"]
     (execs (log (snd (linux_hfsplus_sync
        (with_run (Demo.host true (Demo.always 0) Demo.manifest) (Demo.always 1))
        "/tmp/restore-x" initial)))).
Proof.
  refine (bin_entries_escalated_to_100755
            (Demo.host true (Demo.always 0) Demo.manifest) (Demo.always 1)
            "/tmp/restore-x" "/tmp/restore-x/ramdisk/usr/sbin/helper" initial
            _ _ _ _ _ _ _).
  - reflexivity.
  - reflexivity.
  - repeat (constructor; [unfold has_file_type; vm_compute; discriminate|]).
    constructor.
  - vm_compute. tauto.
  - reflexivity.
  - vm_compute. tauto.
  - vm_compute. reflexivity.
Defined.

(** A link that is not skipped as a directory is placed with the link
    command, carrying its destination path and the target read from the
    staged link, and is not copied. *)
Lemma link_placed_as_link {Manifest : Type} (host : Host Manifest)
    (work file : string) :
  has_file_type (lstat_mode host file) ->
  isdir host file = false ->
  islink host file = true ->
  In ["hfsplus"; work ++ "/ramdisk.dmg"; "link"; image_path host work file;
      readlink host file]
     (file_commands host work file)
  /\ ~ In ["hfsplus"; work ++ "/ramdisk.dmg"; "add"; file;
           image_path host work file]
          (file_commands host work file).
Proof.
  intros Hm Hd Hl. unfold file_commands. rewrite Hd, Hl.
  destruct (chmod_mode_total
              (Path.dirname (Path.relpath (cwd host) file (work ++ "/ramdisk")))
              (lstat_mode host file) (file_type_three_digits _ Hm)) as [p ->].
  split; [left; reflexivity|].
  intros [H | [H | []]]; discriminate.
Qed.

(** C1.  The code at a setuid tool: [usr/sbin/tool] is staged with mode
    04755 ([st_mode] 0104755); the rule hands [755] to the set-permissions
    command, and the only such command for the tool carries [755]: the
    setuid digit is cut off with the file type. *)
Theorem setuid_mode_cut_to_three_digits :
  lstat_mode (Demo.host true (Demo.always 0) Demo.manifest)
             "/tmp/restore-x/ramdisk/usr/sbin/tool" = Py.of_oct "104755"
  /\ chmod_mode "usr/sbin" (Py.of_oct "104755") = Some "755"
  /\ filter (fun argv => names "chmod" argv && names "/usr/sbin/tool" argv)
            (execs (log (snd (linux_hfsplus_sync
               (Demo.host true (Demo.always 0) Demo.manifest)
               "/tmp/restore-x" initial))))
     = [["hfsplus"; "/tmp/restore-x/ramdisk.dmg"; "chmod"; "755";
         "/usr/sbin/tool"]].
Proof. repeat split; vm_compute; reflexivity. Qed.

(** C7.  The code at a link to a directory: [etc] is staged as a link to
    [private/etc]; the directory test follows the link, the entry is skipped,
    and the only command naming [/etc] is the make-directory of the first
    pass: no link command is issued for it. *)
Theorem directory_link_not_linked :
  let h := Demo.host true (Demo.always 0) Demo.manifest in
  islink h "/tmp/restore-x/ramdisk/etc" = true
  /\ readlink h "/tmp/restore-x/ramdisk/etc" = "private/etc"
  /\ In "/tmp/restore-x/ramdisk/etc" (glob h ("/tmp/restore-x" ++ "/ramdisk/**"))
  /\ file_commands h "/tmp/restore-x" "/tmp/restore-x/ramdisk/etc" = []
  /\ filter (names "/etc")
            (execs (log (snd (linux_hfsplus_sync h "/tmp/restore-x" initial))))
     = [["hfsplus"; "/tmp/restore-x/ramdisk.dmg"; "mkdir"; "/etc"]].
Proof.
  cbv zeta. repeat split; try (vm_compute; reflexivity).
  vm_compute. tauto.
Qed.

(** ** Pruning *)

Section Pruning.

Context {Manifest : Type}.
Variable host : Host Manifest.

Lemma prune_loop (work : string) (l : list string) (w : World) :
  exists w',
    for_ l (fun fn => if Py.startswith fn work && negb DEBUG
                      then emit (Remove fn) else ret tt) w
    = (Ret tt, w')
    /\ removed (log w')
       = List.app (rev (filter (fun fn => Py.startswith fn work) l))
                  (removed (log w)).
Proof.
  revert w. induction l as [|fn l IH]; intros w.
  - exists w. split; reflexivity.
  - simpl for_. unfold bind at 1. unfold DEBUG. simpl negb.
    rewrite andb_true_r. simpl filter.
    destruct (Py.startswith fn work) eqn:E.
    + unfold emit at 1.
      destruct (IH {| log := Remove fn :: log w; atexit := atexit w |})
        as (w' & E' & R').
      exists w'. split; [exact E'|]. rewrite R'. simpl.
      now rewrite <- app_assoc.
    + unfold ret at 1. exact (IH w).
Qed.

End Pruning.

(** The guard of the pruning loop is a test on path strings: every path
    handed to the remove operation has the working directory as a prefix, and
    a path without that prefix is removed after pruning exactly when it was
    before. *)
Theorem cleanup_trim_stays_inside_work {Manifest : Type} (host : Host Manifest)
    (work suffix : string) (w : World) :
  exists w' new,
    cleanup_trim host work suffix w = (Ret tt, w')
    /\ removed (log w') = List.app new (removed (log w))
    /\ (forall fn, In fn new ->
          (exists rest, fn = work ++ rest)
          /\ In fn (glob host (work ++ "/**/*"))
          /\ Py.endswith (Path.basename fn) suffix = false)
    /\ (forall p, Py.startswith p work = false ->
          (In p (removed (log w')) <-> In p (removed (log w)))).
Proof.
  unfold cleanup_trim.
  destruct (prune_loop work
              (filter (fun fn => negb (Py.endswith (Path.basename fn) suffix))
                      (glob host (work ++ "/**/*"))) w) as (w' & E & R).
  exists w'. eexists. split; [exact E|]. split; [exact R|].
  assert (Hnew : forall fn,
             In fn (rev (filter (fun fn => Py.startswith fn work)
                (filter (fun fn => negb (Py.endswith (Path.basename fn) suffix))
                        (glob host (work ++ "/**/*"))))) ->
             Py.startswith fn work = true
             /\ In fn (glob host (work ++ "/**/*"))
             /\ Py.endswith (Path.basename fn) suffix = false).
  { intros fn Hin. apply in_rev in Hin.
    apply filter_In in Hin as [Hin Hs]. apply filter_In in Hin as [Hin He].
    apply negb_true_iff in He. auto. }
  split.
  - intros fn Hin. destruct (Hnew fn Hin) as (Hs & Hg & He).
    split; [now apply startswith_spec | auto].
  - intros p Hp. rewrite R. split.
    + intros Hin. apply in_app_or in Hin as [Hin | Hin]; [|exact Hin].
      destruct (Hnew p Hin) as (Hs & _). congruence.
    + intros Hin. apply in_or_app. now right.
Qed.

(** C10.  The guard does not keep pruning inside the working directory.  In a
    working directory that holds [ramdisk/backup.im4p], a link to the
    directory [/home/user/documents], the walk lists
    [ramdisk/backup.im4p/thesis.txt]; the link is kept, its name ending in the
    suffix, the path through it starts with the working directory and is
    handed to the remove operation, and the file this unlinks is
    [/home/user/documents/thesis.txt], outside the working directory. *)
Theorem cleanup_trim_removes_file_outside_work :
  let host := Demo.linked_host in
  let work := "/tmp/restore-x" in
  let fn := "/tmp/restore-x/ramdisk/backup.im4p/thesis.txt" in
  cleanup_trim host work "im4p" initial
  = (Ret tt,
     {| log := [ Remove fn; Remove "/tmp/restore-x/ramdisk";
                 Remove "/tmp/restore-x/BuildManifest.plist" ];
        atexit := [] |})
  /\ In fn (glob host (work ++ "/**/*"))
  /\ Py.startswith fn work = true
  /\ unlinked host fn = "/home/user/documents/thesis.txt"
  /\ Py.startswith (unlinked host fn) work = false.
Proof.
  vm_compute. repeat split. repeat first [left; reflexivity | right].
Qed.

(** ** The board config *)

Lemma lower_ascii_upto_case (c d : ascii) :
  ascii_eq_upto_case c d = true -> Py.lower_ascii c = Py.lower_ascii d.
Proof.
  unfold ascii_eq_upto_case. rewrite !orb_true_iff, !andb_true_iff.
  intros [[H | [Hu H]] | [Hu H]].
  - apply Ascii.eqb_eq in H. now subst.
  - apply Nat.eqb_eq in H. unfold Py.lower_ascii. rewrite Hu.
    assert (Hd : Py.is_upper d = false).
    { unfold Py.is_upper in *. rewrite H.
      apply andb_true_iff in Hu as [Hlo Hhi].
      apply Nat.leb_le in Hlo. apply andb_false_iff. right.
      apply Nat.leb_gt. lia. }
    rewrite Hd, <- H. now rewrite ascii_nat_embedding.
  - apply Nat.eqb_eq in H. unfold Py.lower_ascii. rewrite Hu.
    assert (Hc : Py.is_upper c = false).
    { unfold Py.is_upper in *. rewrite H.
      apply andb_true_iff in Hu as [Hlo Hhi].
      apply Nat.leb_le in Hlo. apply andb_false_iff. right.
      apply Nat.leb_gt. lia. }
    rewrite Hc, <- H. now rewrite ascii_nat_embedding.
Qed.

Lemma lower_upto_case (a b : string) :
  eq_upto_case a b = true -> Py.lower a = Py.lower b.
Proof.
  revert b. induction a as [|c a IH]; intros [|d b]; simpl; try discriminate.
  - reflexivity.
  - rewrite andb_true_iff. intros [Hc Hab].
    now rewrite (lower_ascii_upto_case c d Hc), (IH b Hab).
Qed.

(** C8.  Two board-config arguments equal up to ASCII case, with the same
    remaining inputs, give the same run: [main] lower-cases the argument
    before anything reads it, so every component lookup receives the same
    board config and the whole pipeline behaves identically. *)
Theorem boardconfig_case_insensitive {Manifest : Type} {ops : ManifestOps Manifest}
    (host : Host Manifest) (args : Args) (a b : string) :
  eq_upto_case a b = true ->
  (forall (m : Manifest) (component : string),
      get_comp m (Py.lower a) component = get_comp m (Py.lower b) component)
  /\ (forall w, main host (with_boardconfig args a) w
                = main host (with_boardconfig args b) w)
  /\ run_script host (with_boardconfig args a)
     = run_script host (with_boardconfig args b).
Proof.
  intros H. apply lower_upto_case in H.
  assert (Hmain : forall w, main host (with_boardconfig args a) w
                            = main host (with_boardconfig args b) w).
  { intros w. unfold main, with_boardconfig.
    cbn [arg_ipsw arg_blob arg_boardconfig arg_kpp arg_identifier arg_legacy
         arg_skip_baseband arg_extra_ramdisk arg_boot_arguments arg_boot
         arg_restore].
    rewrite H. reflexivity. }
  split; [|split].
  - intros m c. now rewrite H.
  - exact Hmain.
  - unfold run_script. now rewrite Hmain.
Qed.

Lemma boardconfig_case_insensitive_witness :
  run_script (Demo.host true (Demo.always 0) Demo.manifest)
             (with_boardconfig (Demo.restore_args "d321ap" false None) "D321AP")
  = run_script (Demo.host true (Demo.always 0) Demo.manifest)
               (with_boardconfig (Demo.restore_args "d321ap" false None) "d321Ap").
Proof.
  apply (boardconfig_case_insensitive
           (Demo.host true (Demo.always 0) Demo.manifest)
           (Demo.restore_args "d321ap" false None) "D321AP" "d321Ap").
  reflexivity.
Defined.

(** ** Running the pipelines step by step *)

Section Steps.

Context {Manifest : Type}.
Variable host : Host Manifest.

Lemma bind_ret {A B} (a : A) (k : A -> M B) (w : World) :
  bind (ret a) k w = k a w.
Proof. reflexivity. Qed.

Lemma bind_emit {B} (e : Event) (k : unit -> M B) (w : World) :
  bind (emit e) k w = k tt (logged e w).
Proof. reflexivity. Qed.

Lemma bind_print_info {B} (s : string) (k : unit -> M B) (w : World) :
  bind (print_info s) k w = k tt (logged (Stdout ("[*] Info: " ++ s)) w).
Proof. reflexivity. Qed.

Lemma bind_print_error {B} (s : string) (k : unit -> M B) (w : World) :
  bind (print_error s) k w = k tt (logged (Stderr ("[!] Error: " ++ s)) w).
Proof. reflexivity. Qed.

Lemma bind_atexit_register {B} (d : string) (k : unit -> M B) (w : World) :
  bind (atexit_register d) k w
  = k tt {| log := log w; atexit := d :: atexit w |}.
Proof. reflexivity. Qed.

Lemma bind_sys_exit {A B} (c : Z) (k : A -> M B) (w : World) :
  bind (sys_exit c) k w = (Exit c, w).
Proof. reflexivity. Qed.

Lemma bind_raise {A B} (e : string) (k : A -> M B) (w : World) :
  bind (raise e) k w = (Raise e, w).
Proof. reflexivity. Qed.

Lemma bind_assoc {A B C} (m : M A) (k : A -> M B) (k' : B -> M C) (w : World) :
  bind (bind m k) k' w = bind m (fun a => bind (k a) k') w.
Proof. unfold bind. destruct (m w) as [[a | c | e] w']; reflexivity. Qed.

(** [execute] when the command succeeds. *)
Lemma execute_ok (argv : list string) (ignore_errors : bool) (w : World) :
  (fst (run host (log w) argv) <= 0)%Z ->
  execute host argv ignore_errors w
  = (Ret (snd (run host (log w) argv)), logged (Exec argv) w).
Proof.
  intros H. unfold execute, bind, get_log, emit, ret, DEBUG. simpl.
  destruct (Z.gtb_spec (fst (run host (log w) argv)) 0) as [G|_]; [lia|].
  reflexivity.
Qed.

(** [execute] when the command fails and errors are not ignored. *)
Lemma execute_fatal (argv : list string) (w : World) :
  (0 < fst (run host (log w) argv))%Z ->
  execute host argv false w
  = (Exit 1,
     logged (Stderr ("[!] Error: Command " ++ Py.dq ++ Py.repr_list argv ++ Py.dq
                     ++ " returned non-zero"))
            (logged (Exec argv) w)).
Proof.
  intros H. unfold execute, bind, get_log, emit, ret, DEBUG, print_error. simpl.
  destruct (Z.gtb_spec (fst (run host (log w) argv)) 0) as [_|G]; [|lia].
  reflexivity.
Qed.

Lemma bind_execute_ok {B} (argv : list string) (ignore_errors : bool)
    (k : string -> M B) (w : World) :
  (fst (run host (log w) argv) <= 0)%Z ->
  bind (execute host argv ignore_errors) k w
  = k (snd (run host (log w) argv)) (logged (Exec argv) w).
Proof.
  intros H. unfold bind at 1. now rewrite (execute_ok argv ignore_errors w H).
Qed.

Lemma bind_execute_fatal {B} (argv : list string) (k : string -> M B)
    (w : World) :
  (0 < fst (run host (log w) argv))%Z ->
  bind (execute host argv false) k w
  = (Exit 1,
     logged (Stderr ("[!] Error: Command " ++ Py.dq ++ Py.repr_list argv ++ Py.dq
                     ++ " returned non-zero"))
            (logged (Exec argv) w)).
Proof.
  intros H. unfold bind at 1. now rewrite (execute_fatal argv w H).
Qed.

Lemma bind_concat_path {B} (pre s : string) (k : string -> M B) (w : World) :
  bind (concat_path pre (Some s)) k w = k (pre ++ s) w.
Proof. reflexivity. Qed.

Lemma bind_concat_path_none {B} (pre : string) (k : string -> M B) (w : World) :
  bind (concat_path pre None) k w = (Raise "TypeError", w).
Proof. reflexivity. Qed.

End Steps.

Ltac step :=
  first [ rewrite bind_emit | rewrite bind_print_info | rewrite bind_print_error
        | rewrite bind_atexit_register | rewrite bind_ret | rewrite bind_sys_exit
        | rewrite bind_raise | rewrite bind_concat_path
        | rewrite bind_concat_path_none ];
  cbv beta iota.

(** ** RestoreFlow: the board check *)

(** C3.  A manifest in which the board config resolves to no restore ramdisk
    (no identity matches it) makes RestoreFlow report
    [BoardConfig was not recognized] and exit with status 1; up to that exit
    the pipeline has created its working directory and expanded the archive
    and has run no external command. *)
Theorem unrecognized_board_exits_before_any_command {Manifest : Type}
    {ops : ManifestOps Manifest} (host : Host Manifest)
    (ipsw blob boardconfig : string) (kpp legacy skip_baseband : bool)
    (extra_ramdisk : option string) (m : Manifest) (w : World) :
  load_manifest host (mkdtemp host "restore-" ++ "/BuildManifest.plist") = Some m ->
  get_comp m boardconfig "RestoreRamDisk" = None ->
  let work := mkdtemp host "restore-" in
  let w' := {| log := [ Stderr "[!] Error: Error: BoardConfig was not recognized";
                        ExtractAll ipsw work;
                        Stdout "[*] Info: Extracting IPSW";
                        Mkdir (work ++ "/ramdisk");
                        Mkdtemp work ] ++ log w;
               atexit := work :: atexit w |} in
  prep_restore host ipsw blob boardconfig kpp legacy skip_baseband extra_ramdisk w
  = (Exit 1, w')
  /\ execs (log w') = execs (log w).
Proof.
  intros Hload Hcomp work w'. subst work w'. split; [|reflexivity].
  unfold prep_restore. cbv zeta.
  do 5 step. rewrite Hload. step. rewrite Hcomp.
  rewrite bind_assoc. step. step. reflexivity.
Qed.

Lemma resolveComponent_unknown_board (m : BuildManifest)
    (boardconfig component : string) :
  (forall i, In i (identities m) ->
             Py.lower (boardConfig i) <> Py.lower boardconfig) ->
  resolveComponent m boardconfig component = None.
Proof.
  intros H. unfold resolveComponent.
  destruct (find _ (identities m)) as [i|] eqn:E; [|reflexivity].
  apply find_some in E as [Hin He]. apply String.eqb_eq in He.
  now destruct (H i Hin).
Qed.

Example resolve_d321ap :
  resolveComponent Demo.manifest (Py.lower "D321AP") "RestoreRamDisk"
  = Some "090-1111-100.dmg".
Proof. reflexivity. Qed.

Lemma unrecognized_board_exits_before_any_command_witness :
  fst (prep_restore (Demo.host true (Demo.always 0) Demo.manifest)
         "/home/user/fw.ipsw" "/home/user/blob.shsh2" "d999ap" false false false
         None initial)
  = Exit 1.
Proof.
  refine (f_equal fst
            (proj1 (unrecognized_board_exits_before_any_command
                      (Demo.host true (Demo.always 0) Demo.manifest)
                      "/home/user/fw.ipsw" "/home/user/blob.shsh2" "d999ap"
                      false false false None Demo.manifest initial _ _))).
  - reflexivity.
  - apply resolveComponent_unknown_board. vm_compute.
    intros i [<- | [<- | []]]; discriminate.
Defined.

(** ** The log only grows *)

Section Growth.

Context {Manifest : Type}.
Variable host : Host Manifest.

Lemma grows_ret {A} (a : A) : grows (ret a).
Proof. intros w. now exists []. Qed.

Lemma grows_emit (e : Event) : grows (emit e).
Proof. intros w. now exists [e]. Qed.

Lemma grows_sys_exit {A} (c : Z) : grows (@sys_exit A c).
Proof. intros w. now exists []. Qed.

Lemma grows_raise {A} (e : string) : grows (@raise A e).
Proof. intros w. now exists []. Qed.

Lemma grows_atexit_register (d : string) : grows (atexit_register d).
Proof. intros w. now exists []. Qed.

Lemma grows_atexit_unregister : grows atexit_unregister.
Proof. intros w. now exists []. Qed.

Lemma grows_get_log : grows get_log.
Proof. intros w. now exists []. Qed.

Lemma grows_bind {A B} (m : M A) (k : A -> M B) :
  grows m -> (forall a, grows (k a)) -> grows (bind m k).
Proof.
  intros Hm Hk w. unfold bind. destruct (Hm w) as [l1 E1].
  destruct (m w) as [[a | c | e] w1]; simpl in *.
  - destruct (Hk a w1) as [l2 E2]. exists (List.app l2 l1).
    now rewrite E2, E1, app_assoc.
  - now exists l1.
  - now exists l1.
Qed.

Lemma grows_for {A} (xs : list A) (body : A -> M unit) :
  (forall x, grows (body x)) -> grows (for_ xs body).
Proof.
  intros H. induction xs as [|x xs IH]; simpl.
  - apply grows_ret.
  - apply grows_bind; [apply H | intros _; exact IH].
Qed.

Lemma grows_concat_path (pre : string) (p : option string) :
  grows (concat_path pre p).
Proof. destruct p; [apply grows_ret | apply grows_raise]. Qed.

Lemma grows_os_path_exists (p : string) : grows (os_path_exists host p).
Proof. intros w. now exists []. Qed.

End Growth.

Ltac grow_with tac :=
  repeat first
    [ tac
    | apply grows_ret | apply grows_emit | apply grows_sys_exit
    | apply grows_raise | apply grows_atexit_register
    | apply grows_atexit_unregister | apply grows_get_log
    | apply grows_concat_path | apply grows_os_path_exists
    | apply grows_bind; [|intros ?]
    | apply grows_for; intros ?
    | match goal with
      | |- grows (if ?b then _ else _) => destruct b
      | |- grows (match ?o with _ => _ end) => destruct o
      end ].

Ltac grow := grow_with fail.

Section GrowthOfTheScript.

Context {Manifest : Type} {ops : ManifestOps Manifest}.
Variable host : Host Manifest.

Lemma grows_execute (argv : list string) (ignore_errors : bool) :
  grows (execute host argv ignore_errors).
Proof. unfold execute, print, print_error. grow. Qed.

Lemma grows_sync (work : string) : grows (linux_hfsplus_sync host work).
Proof.
  unfold linux_hfsplus_sync, sync_dir, sync_file, print_error.
  grow_with ltac:(apply grows_execute).
Qed.

Lemma grows_cleanup_trim (work suffix : string) :
  grows (cleanup_trim host work suffix).
Proof. unfold cleanup_trim. grow. Qed.

End GrowthOfTheScript.

(** ** BootFlow: the keys *)

Ltac grow_script :=
  grow_with ltac:(first [ apply grows_execute | apply grows_sync
                        | apply grows_cleanup_trim ]).

Lemma some_key_empty (a b c d : string) :
  a = EmptyString \/ b = EmptyString \/ c = EmptyString \/ d = EmptyString ->
  Py.truthy a && Py.truthy b && Py.truthy c && Py.truthy d = false.
Proof.
  intros [-> | [-> | [-> | ->]]]; simpl;
    rewrite ?andb_false_r; reflexivity.
Qed.

(** C4.  When the key provider returns an empty value for any of the four
    loader parameters, BootFlow prints the warning and goes on: the next
    command it runs is the first-stage decrypt, whose key argument is the
    (possibly empty) IV followed by the key, and when that command succeeds
    the second-stage decrypt follows in the same way. *)
Theorem empty_keys_warn_then_decrypt {Manifest : Type}
    {ops : ManifestOps Manifest} (host : Host Manifest)
    (ipsw blob boardconfig : string) (kpp : bool) (identifier : option string)
    (legacy : bool) (extra_ramdisk : option string) (boot_arguments : string)
    (m : Manifest) (version ibss ibec ibss_iv ibss_key ibec_iv ibec_key : string)
    (w : World) :
  let work := mkdtemp host "boot-" in
  load_manifest host (work ++ "/BuildManifest.plist") = Some m ->
  getProductBuildVersion m = Some version ->
  get_keys host identifier boardconfig version
  = (ibss_iv, ibss_key, ibec_iv, ibec_key) ->
  ibss_iv = EmptyString \/ ibss_key = EmptyString
  \/ ibec_iv = EmptyString \/ ibec_key = EmptyString ->
  get_comp m boardconfig "iBSS" = Some ibss ->
  get_comp m boardconfig "iBEC" = Some ibec ->
  let decrypt_ibss :=
    ["img4"; "-i"; (work ++ "/") ++ ibss; "-o"; work ++ "/ibss.dmg"; "-k";
     ibss_iv ++ ibss_key] in
  let decrypt_ibec :=
    ["img4"; "-i"; (work ++ "/") ++ ibec; "-o"; work ++ "/ibec.dmg"; "-k";
     ibec_iv ++ ibec_key] in
  let before :=
    List.app
      [ Stdout "[*] Info: Decrypting IBSS";
        Stdout "[*] Info: Getting IBSS and IBEC";
        Stderr "[!] Error: Possible incorrect identifier or boardconfig";
        Stdout "[*] Info: Getting ProductBuildVersion";
        ExtractAll ipsw work;
        Stdout "[*] Info: Unzipping IPSW";
        Mkdir (work ++ "/ramdisk");
        Mkdtemp work ]
      (log w) in
  let w' := snd (prep_boot host ipsw blob boardconfig kpp identifier legacy
                           extra_ramdisk boot_arguments w) in
  (exists later, log w' = List.app later (Exec decrypt_ibss :: before))
  /\ ((fst (run host before decrypt_ibss) <= 0)%Z ->
      exists later,
        log w' = List.app later
                   (Exec decrypt_ibec :: Stdout "[*] Info: Decrypting IBEC"
                    :: Exec decrypt_ibss :: before)).
Proof.
  intros work Hload Hver Hkeys Hempty Hibss Hibec decrypt_ibss decrypt_ibec
         before w'.
  subst w'. unfold prep_boot. cbv zeta. fold work.
  do 5 step. rewrite Hload. do 2 step. rewrite Hver. step.
  rewrite Hkeys. cbv beta iota.
  rewrite (some_key_empty _ _ _ _ Hempty). simpl negb. cbv iota.
  do 3 step. rewrite Hibss, Hibec. step.
  fold decrypt_ibss.
  match goal with
  | |- context [bind (execute host decrypt_ibss false) ?k ?w0] =>
      set (K := k); set (w0' := w0)
  end.
  assert (Hw0 : log w0' = before) by reflexivity.
  clearbody w0'. rewrite <- Hw0.
  destruct (Z.le_gt_cases (fst (run host (log w0') decrypt_ibss)) 0)
    as [Hok | Hko].
  - rewrite (bind_execute_ok host _ false K w0' Hok).
    subst K. cbv beta. do 2 step.
    fold decrypt_ibec.
    match goal with
    | |- context [bind (execute host decrypt_ibec false) ?k ?w0] =>
        set (K := k); set (w1 := w0)
    end.
    assert (Hw1 : log w1 = Stdout "[*] Info: Decrypting IBEC"
                           :: Exec decrypt_ibss :: log w0') by reflexivity.
    clearbody w1.
    assert (Second : exists later,
               log (snd (bind (execute host decrypt_ibec false) K w1))
               = List.app later
                   (Exec decrypt_ibec :: Stdout "[*] Info: Decrypting IBEC"
                    :: Exec decrypt_ibss :: log w0')).
    { destruct (Z.le_gt_cases (fst (run host (log w1) decrypt_ibec)) 0)
        as [Hok2 | Hko2].
      - rewrite (bind_execute_ok host _ false K w1 Hok2).
        assert (G : grows (K (snd (run host (log w1) decrypt_ibec))))
          by (subst K; cbv beta; grow_script).
        destruct (G (logged (Exec decrypt_ibec) w1)) as [l El].
        exists l. rewrite El. simpl. now rewrite Hw1.
      - rewrite (bind_execute_fatal host _ K w1 Hko2).
        eexists [_]. simpl. now rewrite Hw1. }
    split.
    + destruct Second as [later E]. rewrite E.
      exists (List.app later
                [Exec decrypt_ibec; Stdout "[*] Info: Decrypting IBEC"]).
      now rewrite <- app_assoc.
    + intros _. exact Second.
  - rewrite (bind_execute_fatal host _ K w0' Hko).
    split.
    + now eexists [_].
    + intros Hok. lia.
Qed.

Lemma empty_keys_warn_then_decrypt_witness :
  exists later,
    log (snd (prep_boot (Demo.host_no_keys true Demo.manifest)
                "/home/user/fw.ipsw" "/home/user/blob.shsh2" "d321ap" false
                (Some "iPhone6,1") false None EmptyString initial))
    = List.app later
        [ Exec ["img4"; "-i"; "/tmp/boot-x/Firmware/dfu/iBSS.d321.RELEASE.im4p";
                "-o"; "/tmp/boot-x/ibss.dmg"; "-k"; EmptyString];
          Stdout "[*] Info: Decrypting IBSS";
          Stdout "[*] Info: Getting IBSS and IBEC";
          Stderr "[!] Error: Possible incorrect identifier or boardconfig";
          Stdout "[*] Info: Getting ProductBuildVersion";
          ExtractAll "/home/user/fw.ipsw" "/tmp/boot-x";
          Stdout "[*] Info: Unzipping IPSW";
          Mkdir "/tmp/boot-x/ramdisk";
          Mkdtemp "/tmp/boot-x" ].
Proof.
  refine (proj1 (empty_keys_warn_then_decrypt
                   (Demo.host_no_keys true Demo.manifest)
                   "/home/user/fw.ipsw" "/home/user/blob.shsh2" "d321ap" false
                   (Some "iPhone6,1") false None EmptyString Demo.manifest
                   "19H12" "Firmware/dfu/iBSS.d321.RELEASE.im4p"
                   "Firmware/dfu/iBEC.d321.RELEASE.im4p"
                   EmptyString EmptyString EmptyString EmptyString initial
                   _ _ _ _ _ _)).
  - reflexivity.
  - reflexivity.
  - reflexivity.
  - left. reflexivity.
  - reflexivity.
  - reflexivity.
Defined.

(** ** Missing components *)

(** C5, as stated, fails.  A bundle whose manifest has the board but no
    first-stage loader: the lookup finds nothing, nothing at all is written
    to standard error during the run, and the run ends with an unhandled
    [TypeError]. *)
Lemma missing_component_not_reported :
  let r := prep_boot (Demo.host true (Demo.always 0) Demo.manifest_no_ibss)
             "/home/user/fw.ipsw" "/home/user/blob.shsh2" "d321ap" false
             (Some "iPhone6,1") false None EmptyString initial in
  get_comp Demo.manifest_no_ibss "d321ap" "iBSS" = None
  /\ fst r = Raise "TypeError"
  /\ ~ (exists line, In (Stderr line) (log (snd r))).
Proof.
  cbv zeta. split; [reflexivity|]. split; [reflexivity|].
  intros [line H]. vm_compute in H.
  repeat (destruct H as [H | H]; [discriminate H|]). exact H.
Qed.

(** *** Quiet pieces and doomed runs *)

Section Quiet.

Context {Manifest : Type}.
Variable host : Host Manifest.
Hypothesis Hs : commands_succeed host.

Lemma quiet_ret {A} (a : A) : quiet (ret a).
Proof. intros w. now exists a, w. Qed.

Lemma quiet_emit (e : Event) : stderr_lines [e] = [] -> quiet (emit e).
Proof.
  intros H w. exists tt, (logged e w). split; [reflexivity|].
  destruct e; simpl in *; try reflexivity. discriminate.
Qed.

Lemma quiet_print_info (s : string) : quiet (print_info s).
Proof. now apply quiet_emit. Qed.

Lemma quiet_atexit_register (d : string) : quiet (atexit_register d).
Proof. intros w. eexists tt, _. split; reflexivity. Qed.

Lemma quiet_bind {A B} (m : M A) (k : A -> M B) :
  quiet m -> (forall a, quiet (k a)) -> quiet (bind m k).
Proof.
  intros Hm Hk w. destruct (Hm w) as (a & w1 & E1 & S1).
  destruct (Hk a w1) as (b & w2 & E2 & S2).
  exists b, w2. unfold bind. rewrite E1. split; [exact E2 | congruence].
Qed.

Lemma quiet_execute (argv : list string) (ignore_errors : bool) :
  quiet (execute host argv ignore_errors).
Proof.
  intros w. eexists _, _. split.
  - apply execute_ok. apply Hs.
  - reflexivity.
Qed.

Lemma quiet_sync (work : string) :
  sync_ready host work -> quiet (linux_hfsplus_sync host work).
Proof.
  intros (E1 & E2 & Hm) w.
  destruct (sync_runs host work w (E1 _) (E2 _) Hm) as (w' & E & I).
  exists tt, w'. split; [exact E|].
  destruct I as (_ & _ & _ & S). exact (S Hs).
Qed.

Lemma doomed_ret {A} (warnings : list string) (stage : string) (a : A)
    (k : A -> M unit) :
  doomed warnings stage (k a) -> doomed warnings stage (bind (ret a) k).
Proof. intros H w. exact (H w). Qed.

Lemma doomed_bind {A} (warnings : list string) (stage : string) (m : M A)
    (k : A -> M unit) :
  quiet m -> (forall a, doomed warnings stage (k a)) ->
  doomed warnings stage (bind m k).
Proof.
  intros Hm Hk w. destruct (Hm w) as (a & w1 & E1 & S1).
  destruct (Hk a w1) as (R & Hd & S2).
  unfold fails_in_stage, bind. rewrite E1. repeat split; [exact R | exact Hd|].
  rewrite S2. now rewrite S1.
Qed.

(** The warning about the keys is the one line a doomed run may add. *)
Lemma doomed_warn (stage s : string) (k : unit -> M unit) :
  doomed [] stage (k tt) ->
  doomed ["[!] Error: " ++ s] stage (bind (print_error s) k).
Proof.
  intros H w. destruct (H (logged (Stderr ("[!] Error: " ++ s)) w))
    as (R & Hd & S).
  unfold fails_in_stage. rewrite bind_print_error.
  repeat split; [exact R | exact Hd | exact S].
Qed.

(** The stage is announced, then building its command from the missing path
    raises. *)
Lemma doomed_here (stage pre : string) (k : string -> M unit) :
  doomed [] stage
    (bind (print_info stage) (fun _ => bind (concat_path pre None) k)).
Proof. intros w. repeat split. Qed.

Lemma doomed_here_nested {B} (stage pre : string) (k : string -> M B)
    (k' : B -> M unit) :
  doomed [] stage
    (bind (bind (print_info stage) (fun _ => bind (concat_path pre None) k)) k').
Proof. intros w. repeat split. Qed.

End Quiet.

Ltac quiet_with Hs tac :=
  repeat match goal with
    | |- quiet (ret _) => apply quiet_ret
    | |- quiet (print_info _) => apply quiet_print_info
    | |- quiet (emit _) => apply quiet_emit; reflexivity
    | |- quiet (atexit_register _) => apply quiet_atexit_register
    | |- quiet (execute _ _ _) => apply (quiet_execute _ Hs)
    | |- quiet (concat_path _ (Some _)) => apply quiet_ret
    | |- quiet (bind _ _) => apply quiet_bind; [|intros ?]
    | |- quiet (if ?b then _ else _) => destruct b
    | |- quiet (match ?o with _ => _ end) => destruct o
    | |- quiet _ => tac
    end.

Ltac doom_with Hs tac :=
  repeat match goal with
    | |- doomed _ _ (bind (print_info _)
                          (fun _ => bind (concat_path _ None) _)) =>
        apply doomed_here
    | |- doomed _ _ (bind (bind (print_info _)
                                (fun _ => bind (concat_path _ None) _)) _) =>
        apply doomed_here_nested
    | |- doomed _ _ (bind (ret _) _) => apply doomed_ret
    | |- doomed _ _ (bind (concat_path _ (Some _)) _) => apply doomed_ret
    | |- doomed _ _ (bind _ _) =>
        apply doomed_bind; [solve [quiet_with Hs tac] | intros ?]
    end.

Ltac use_lookups :=
  repeat match goal with
    | H : get_comp ?m ?b ?c = None |- _ => rewrite H; clear H
    | H : get_comp ?m ?b ?c <> None |- _ =>
        destruct (get_comp m b c) eqn:?; [clear H | now destruct H]
    end;
  cbv beta iota.

Ltac as_doomed :=
  match goal with
  | |- fails_in_stage (?m ?w) ?w ?warn ?stage =>
      cut (doomed warn stage m); [intros D; exact (D w)|]
  end.

(** C5, amended.  A component lookup other than the RestoreRamDisk board
    check that yields no path is not reported and does not end the run where
    it is made: in a run whose external commands succeed, the run goes on to
    the stage that needs the path, announces it, and ends there with an
    unhandled [TypeError] before that stage's command is built; standard
    error receives nothing but the warning about the keys, if that was due. *)
Theorem missing_component_fails_when_needed {Manifest : Type}
    {ops : ManifestOps Manifest} (host : Host Manifest)
    (ipsw blob boardconfig : string) (kpp : bool) (identifier : option string)
    (legacy skip_baseband : bool) (extra_ramdisk : option string)
    (boot_arguments : string) (m : Manifest) (w : World) :
  commands_succeed host ->
  (load_manifest host (mkdtemp host "boot-" ++ "/BuildManifest.plist") = Some m ->
   forall version, getProductBuildVersion m = Some version ->
   let r := prep_boot host ipsw blob boardconfig kpp identifier legacy
                      extra_ramdisk boot_arguments w in
   let warn := key_warning (get_keys host identifier boardconfig version) in
   (get_comp m boardconfig "iBSS" = None ->
    fails_in_stage r w warn "Decrypting IBSS")
   /\ (get_comp m boardconfig "iBSS" <> None ->
       get_comp m boardconfig "iBEC" = None ->
       fails_in_stage r w warn "Decrypting IBEC")
   /\ (get_comp m boardconfig "iBSS" <> None ->
       get_comp m boardconfig "iBEC" <> None ->
       get_comp m boardconfig "DeviceTree" = None ->
       fails_in_stage r w warn "Signing Device Tree")
   /\ (get_comp m boardconfig "iBSS" <> None ->
       get_comp m boardconfig "iBEC" <> None ->
       get_comp m boardconfig "DeviceTree" <> None ->
       legacy = false ->
       get_comp m boardconfig "StaticTrustCache" = None ->
       fails_in_stage r w warn "Signing Trust Cache")
   /\ (get_comp m boardconfig "iBSS" <> None ->
       get_comp m boardconfig "iBEC" <> None ->
       get_comp m boardconfig "DeviceTree" <> None ->
       legacy = true \/ get_comp m boardconfig "StaticTrustCache" <> None ->
       get_comp m boardconfig "KernelCache" = None ->
       fails_in_stage r w warn "Extracting Kernel"))
  /\ (load_manifest host (mkdtemp host "restore-" ++ "/BuildManifest.plist")
      = Some m ->
      get_comp m boardconfig "RestoreRamDisk" <> None ->
      get_comp m boardconfig "RestoreKernelCache" = None ->
      (LINUX host = true -> truthy_opt extra_ramdisk = true ->
       sync_ready host (mkdtemp host "restore-")) ->
      fails_in_stage
        (prep_restore host ipsw blob boardconfig kpp legacy skip_baseband
                      extra_ramdisk w)
        w [] "Extracting Kernel").
Proof.
  intros Hs. split.
  - intros Hload version Hver r warn. subst r warn.
    unfold prep_boot. cbv zeta. rewrite Hload. cbv beta iota.
    split; [|split; [|split; [|split]]]; intros.
    all: try match goal with
           | H : _ \/ _ |- _ => destruct H; [|destruct legacy]
           end.
    all: subst; as_doomed.
    all: doom_with Hs fail.
    all: rewrite Hver; cbv beta iota; apply doomed_ret.
    all: destruct (get_keys host identifier boardconfig version)
           as [[[ibss_iv ibss_key] ibec_iv] ibec_key];
         unfold key_warning; cbv beta iota.
    all: use_lookups; cbn [negb]; cbv beta iota.
    all: destruct (Py.truthy ibss_iv && Py.truthy ibss_key
                   && Py.truthy ibec_iv && Py.truthy ibec_key);
         cbn [negb]; cbv beta iota;
         [ apply doomed_ret
         | refine (doomed_warn _ "Possible incorrect identifier or boardconfig"
                               _ _) ].
    all: doom_with Hs fail.
  - intros Hload Hram Hkern Hready. as_doomed.
    unfold prep_restore. cbv zeta. rewrite Hload. cbv beta iota.
    destruct (LINUX host) eqn:EL;
      (destruct extra_ramdisk as [extra|]; [destruct (Py.truthy extra) eqn:Et|]);
      cbn [truthy_opt]; rewrite ?Et; cbv beta iota.
    all: doom_with Hs fail; use_lookups.
    all: doom_with Hs
           ltac:(apply (quiet_sync _ Hs); apply Hready;
                 first [reflexivity | assumption
                       | cbn [truthy_opt]; assumption]).
Qed.

Lemma missing_component_fails_when_needed_witness :
  commands_succeed (Demo.host true (Demo.always 0) Demo.manifest_no_ibss)
  /\ fails_in_stage
       (prep_boot (Demo.host true (Demo.always 0) Demo.manifest_no_ibss)
          "/home/user/fw.ipsw" "/home/user/blob.shsh2" "d321ap" false
          (Some "iPhone6,1") false None EmptyString initial)
       initial [] "Decrypting IBSS".
Proof.
  assert (Hs : commands_succeed
                 (Demo.host true (Demo.always 0) Demo.manifest_no_ibss)).
  { intros l argv. simpl. lia. }
  split; [exact Hs|].
  refine (proj1
            (proj1 (missing_component_fails_when_needed
                      (Demo.host true (Demo.always 0) Demo.manifest_no_ibss)
                      "/home/user/fw.ipsw" "/home/user/blob.shsh2" "d321ap"
                      false (Some "iPhone6,1") false false None EmptyString
                      Demo.manifest_no_ibss initial Hs)
                   _ "19H12" _)
            _); reflexivity.
Defined.

(** ** RestoreFlow: the legacy flag *)

(** C2.  The code at a legacy restore on Linux: the run announces that it
    skips [restored_external], completes, and has still run four image
    commands naming it: the extract and the remove before patching, the add
    and the set-permissions after. *)
Theorem legacy_restore_on_linux_touches_restored_external :
  let r := run_script (Demo.host true (Demo.always 0) Demo.manifest)
                      (Demo.restore_args "D321AP" true None) in
  fst r = Exit 0
  /\ In (Stdout "[*] Info: Legacy mode, skipping restored_external")
        (log (snd r))
  /\ filter (names "/usr/local/bin/restored_external") (execs (log (snd r)))
     = [ ["hfsplus"; "/tmp/restore-x/ramdisk.dmg"; "extract";
          "/usr/local/bin/restored_external";
          "/tmp/restore-x/ramdisk/usr/local/bin/restored_external"];
         ["hfsplus"; "/tmp/restore-x/ramdisk.dmg"; "rm";
          "/usr/local/bin/restored_external"];
         ["hfsplus"; "/tmp/restore-x/ramdisk.dmg"; "add";
          "/tmp/restore-x/ramdisk/usr/local/bin/restored_external";
          "/usr/local/bin/restored_external"];
         ["hfsplus"; "/tmp/restore-x/ramdisk.dmg"; "chmod"; "100755";
          "/usr/local/bin/restored_external"] ].
Proof.
  cbv zeta. split; [vm_compute; reflexivity|]. split.
  - vm_compute. repeat first [left; reflexivity | right].
  - vm_compute. reflexivity.
Qed.

(** The sibling path: where the image is mounted natively, a legacy restore
    runs no command naming [restored_external]. *)
Example legacy_restore_mounted_skips_restored_external :
  let r := run_script (Demo.host false (Demo.always 0) Demo.manifest)
                      (Demo.restore_args "D321AP" true None) in
  fst r = Exit 0
  /\ filter (fun argv =>
               names "/usr/local/bin/restored_external" argv
               || names "/tmp/restore-x/ramdisk/usr/local/bin/restored_external"
                        argv
               || names "restored_external64_patcher" argv)
            (execs (log (snd r))) = [].
Proof. cbv zeta. split; vm_compute; reflexivity. Qed.

(** * Further properties of the script *)

(** ** Dependency check *)

Section Dependencies.

Context {Manifest : Type}.
Variable host : Host Manifest.

Lemma dependency_loop (progs : list string) (w : World) :
  (forallb (which host) progs = true ->
   for_ progs (fun prog =>
     if negb (check_for_command host prog) then
       print_error (Py.dq ++ prog ++ Py.dq ++ " not found, please install it.") ;;
       sys_exit 1
     else ret tt) w = (Ret tt, w))
  /\ (forall present prog rest,
        progs = List.app present (prog :: rest) ->
        forallb (which host) present = true ->
        which host prog = false ->
        for_ progs (fun prog =>
          if negb (check_for_command host prog) then
            print_error (Py.dq ++ prog ++ Py.dq
                         ++ " not found, please install it.") ;;
            sys_exit 1
          else ret tt) w
        = (Exit 1,
           logged (Stderr ("[!] Error: " ++ Py.dq ++ prog ++ Py.dq
                           ++ " not found, please install it.")) w)).
Proof.
  unfold check_for_command. induction progs as [|p progs IH]; split.
  - reflexivity.
  - intros [|x present] prog rest E; discriminate.
  - simpl forallb. rewrite andb_true_iff. intros [Hp Hrest].
    simpl for_. unfold bind at 1. rewrite Hp. simpl negb. cbv iota.
    unfold ret at 1. exact (proj1 IH Hrest).
  - intros [|x present] prog rest E Hpresent Hmiss.
    + injection E as -> ->. simpl for_. unfold bind at 1.
      rewrite Hmiss. reflexivity.
    + injection E as -> ->. simpl in Hpresent.
      apply andb_true_iff in Hpresent as [Hx Hpresent].
      simpl for_. unfold bind at 1. rewrite Hx. simpl negb. cbv iota.
      unfold ret at 1. exact (proj2 IH present prog rest eq_refl Hpresent Hmiss).
Qed.

End Dependencies.

(** X1.  The dependency check returns without a trace when every program of
    the list is found; otherwise it reports the first program of the list
    that is missing, exits with status 1, and reports none of the later
    ones.  The list asks for [hfsplus] on Linux and for [hdiutil]
    elsewhere. *)
Theorem dependencies_checked_in_order {Manifest : Type} (host : Host Manifest)
    (w : World) :
  (forallb (which host) (program_list host) = true ->
   check_for_dependencies host w = (Ret tt, w))
  /\ (forall present prog rest,
        program_list host = List.app present (prog :: rest) ->
        forallb (which host) present = true ->
        which host prog = false ->
        check_for_dependencies host w
        = (Exit 1,
           logged (Stderr ("[!] Error: " ++ Py.dq ++ prog ++ Py.dq
                           ++ " not found, please install it.")) w))
  /\ (In "hfsplus" (program_list host) <-> LINUX host = true)
  /\ (In "hdiutil" (program_list host) <-> LINUX host = false).
Proof.
  split; [|split; [|split]].
  - exact (proj1 (dependency_loop host (program_list host) w)).
  - exact (proj2 (dependency_loop host (program_list host) w)).
  - unfold program_list. destruct (LINUX host); simpl; split; intros H;
      try reflexivity; try discriminate; try tauto;
      repeat (destruct H as [H | H]; [discriminate H|]); destruct H.
  - unfold program_list. destruct (LINUX host); simpl; split; intros H;
      try reflexivity; try discriminate; try tauto;
      repeat (destruct H as [H | H]; [discriminate H|]); destruct H.
Qed.

(** ** Argument checks of [main] *)

(** X2.  With the dependencies present, [main] rejects bad arguments before
    it does anything: a missing IPSW, a missing blob, boot mode without an
    identifier, an extra ramdisk that is missing or is not named [*.tar.gz],
    and no mode at all each end the run with status 1 and one error line;
    no directory is created and no command is run. *)
Theorem main_rejects_bad_arguments {Manifest : Type} {ops : ManifestOps Manifest}
    (host : Host Manifest) (args : Args) (w : World) :
  forallb (which host) (program_list host) = true ->
  let ipsw := realpath host (arg_ipsw args) in
  let blob := realpath host (arg_blob args) in
  let there := path_exists host (log w) in
  let fails line := main host args w
                    = (Exit 1, logged (Stderr ("[!] Error: " ++ line)) w) in
  (there ipsw = false ->
   fails ("IPSW " ++ Py.dq ++ ipsw ++ Py.dq ++ " doesn't exist"))
  /\ (there ipsw = true -> there blob = false ->
      fails ("Blob " ++ Py.dq ++ blob ++ Py.dq ++ " doesn't exist"))
  /\ (there ipsw = true -> there blob = true ->
      arg_boot args = true -> truthy_opt (arg_identifier args) = false ->
      fails "You need to specify an identifier (--identifier)")
  /\ (there ipsw = true -> there blob = true ->
      arg_boot args && negb (truthy_opt (arg_identifier args)) = false ->
      forall extra, arg_extra_ramdisk args = Some extra ->
      Py.truthy extra = true -> Py.truthy (realpath host extra) = true ->
      there (realpath host extra) = false
      \/ Py.endswith (realpath host extra) ".tar.gz" = false ->
      fails "Extra ramdisk must be in the $file.tar.gz format").
Proof.
  intros Hdeps ipsw blob there fails. subst fails there.
  pose proof (proj1 (dependencies_checked_in_order host w) Hdeps) as Hcheck.
  unfold main, bind, os_path_exists, ret, print_error, emit, sys_exit, logged.
  cbv zeta. fold ipsw blob. rewrite Hcheck. cbv beta iota.
  repeat split.
  - intros E. rewrite E. reflexivity.
  - intros E1 E2. rewrite E1. cbn [negb]. cbv beta iota. rewrite E2.
    reflexivity.
  - intros E1 E2 Hb Hi. rewrite E1. cbn [negb]. cbv beta iota. rewrite E2.
    cbn [negb]. cbv beta iota. rewrite Hb, Hi. reflexivity.
  - intros E1 E2 Hb extra Hx Ht Ht' Hbad.
    rewrite E1. cbn [negb]. cbv beta iota. rewrite E2.
    cbn [negb]. cbv beta iota. rewrite Hb. cbv beta iota. rewrite Hx.
    cbn [negb truthy_opt option_map]. cbv beta iota.
    rewrite Ht. cbv beta iota. rewrite Ht'. cbv beta iota.
    destruct Hbad as [Hbad | Hbad]; rewrite Hbad; cbn [negb orb];
      rewrite ?orb_true_r; reflexivity.
Qed.

(** ** What every piece of the script keeps *)

Section Tame.

Context {Manifest : Type}.
Variable host : Host Manifest.
Variable P : Event -> Prop.

Lemma tame_ret {A} (a : A) : tame P (ret a).
Proof. intros w. split; [now exists [] | discriminate]. Qed.

Lemma tame_raise {A} (e : string) : tame P (@raise A e).
Proof. intros w. split; [now exists [] | discriminate]. Qed.

Lemma tame_sys_exit_1 {A} : tame P (@sys_exit A 1).
Proof. intros w. split; [now exists [] | now intros c [= <-]]. Qed.

Lemma tame_emit (e : Event) : P e -> tame P (emit e).
Proof.
  intros H w. split; [|discriminate]. exists [e]. split; [reflexivity|].
  now constructor.
Qed.

Lemma tame_atexit_register (d : string) : tame P (atexit_register d).
Proof. intros w. split; [now exists [] | discriminate]. Qed.

Lemma tame_atexit_unregister : tame P atexit_unregister.
Proof. intros w. split; [now exists [] | discriminate]. Qed.

Lemma tame_get_log : tame P get_log.
Proof. intros w. split; [now exists [] | discriminate]. Qed.

Lemma tame_os_path_exists (p : string) : tame P (os_path_exists host p).
Proof. intros w. split; [now exists [] | discriminate]. Qed.

Lemma tame_concat_path (pre : string) (p : option string) :
  tame P (concat_path pre p).
Proof. destruct p; [apply tame_ret | apply tame_raise]. Qed.

Lemma tame_bind {A B} (m : M A) (k : A -> M B) :
  tame P m -> (forall a, tame P (k a)) -> tame P (bind m k).
Proof.
  intros Hm Hk w. unfold bind. destruct (Hm w) as [[l1 [E1 F1]] X1].
  destruct (m w) as [[a | c | e] w1]; simpl in *.
  - destruct (Hk a w1) as [[l2 [E2 F2]] X2]. split; [|exact X2].
    exists (List.app l2 l1). split.
    + now rewrite E2, E1, app_assoc.
    + apply Forall_app. now split.
  - split; [now exists l1|]. intros c0 [= <-]. now apply X1.
  - split; [now exists l1 | discriminate].
Qed.

Lemma tame_for {A} (xs : list A) (body : A -> M unit) :
  (forall x, tame P (body x)) -> tame P (for_ xs body).
Proof.
  intros H. induction xs as [|x xs IH]; simpl.
  - apply tame_ret.
  - apply tame_bind; [apply H | intros _; exact IH].
Qed.

Lemma tame_execute (argv : list string) (ignore_errors : bool) :
  P (Exec argv) -> P (Stderr (failure_line argv)) ->
  tame P (execute host argv ignore_errors).
Proof.
  intros He Hf w.
  unfold execute, bind, get_log, emit, print_error, ret, sys_exit, DEBUG.
  simpl.
  destruct (fst (run host (log w) argv) >? 0)%Z; [destruct ignore_errors|];
    simpl; (split; [|try discriminate; now intros c [= <-]]).
  - exists [Stderr (failure_line argv); Exec argv]. split; [reflexivity|].
    repeat constructor; assumption.
  - exists [Stderr (failure_line argv); Exec argv]. split; [reflexivity|].
    repeat constructor; assumption.
  - exists [Exec argv]. split; [reflexivity|]. repeat constructor; assumption.
Qed.

End Tame.

Lemma tame_weaken {A} (P Q : Event -> Prop) (m : M A) :
  (forall e, P e -> Q e) -> tame P m -> tame Q m.
Proof.
  intros H Hm w. destruct (Hm w) as [[l [E F]] X]. split; [|exact X].
  exists l. split; [exact E|]. eapply Forall_impl; eauto.
Qed.

(** Walk a piece of the script along its binds, loops and branches. *)
Ltac walk bind_rule for_rule leaf :=
  repeat match goal with
    | |- _ (bind _ _) => bind_rule; [|intros ?]
    | |- _ (for_ _ _) => for_rule; intros ?
    | |- _ (if ?b then _ else _) => destruct b
    | |- _ (match ?o with _ => _ end) => destruct o
    | |- _ => leaf
    end.

Ltac tame_leaf side :=
  first [ apply tame_ret | apply tame_raise | apply tame_sys_exit_1
        | apply tame_atexit_register | apply tame_atexit_unregister
        | apply tame_get_log | apply tame_os_path_exists
        | apply tame_concat_path
        | apply tame_emit; side
        | apply tame_execute; side ].

Ltac tame_walk side :=
  walk ltac:(apply tame_bind) ltac:(apply tame_for) ltac:(tame_leaf side).

Lemma tame_sync_image {Manifest : Type} (host : Host Manifest) (work : string) :
  tame (image_primitive work) (linux_hfsplus_sync host work).
Proof.
  unfold linux_hfsplus_sync, sync_dir, sync_file, print_error.
  tame_walk ltac:(cbn; tauto).
Qed.

Lemma tame_cleanup_trim_removals {Manifest : Type} (host : Host Manifest)
    (P : Event -> Prop) (work suffix : string) :
  (forall p, P (Remove p)) -> tame P (cleanup_trim host work suffix).
Proof. intros H. unfold cleanup_trim. tame_walk ltac:(apply H). Qed.

Section TameScript.

Context {Manifest : Type} {ops : ManifestOps Manifest}.
Variable host : Host Manifest.
Variable P : Event -> Prop.
Hypothesis HP : forall e, routine e -> P e.

Lemma tame_sync (work : string) : tame P (linux_hfsplus_sync host work).
Proof.
  unfold linux_hfsplus_sync, sync_dir, sync_file, print_error.
  tame_walk ltac:(apply HP; exact I).
Qed.

Lemma tame_cleanup_trim (work suffix : string) :
  tame P (cleanup_trim host work suffix).
Proof. unfold cleanup_trim. tame_walk ltac:(apply HP; exact I). Qed.

Lemma tame_check_for_dependencies : tame P (check_for_dependencies host).
Proof.
  unfold check_for_dependencies, print_error.
  tame_walk ltac:(apply HP; exact I).
Qed.

Ltac tame_flow :=
  walk ltac:(apply tame_bind) ltac:(apply tame_for)
       ltac:(first [ apply tame_sync | apply tame_cleanup_trim
                   | tame_leaf ltac:(apply HP; exact I) ]).

Lemma tame_prep_restore (ipsw blob boardconfig : string)
    (kpp legacy skip_baseband : bool) (extra_ramdisk : option string) :
  (forall prompt, P (Input prompt)) ->
  tame P (prep_restore host ipsw blob boardconfig kpp legacy skip_baseband
                       extra_ramdisk).
Proof.
  intros HI.
  unfold prep_restore, print_info, print_error, print. cbv zeta.
  walk ltac:(apply tame_bind) ltac:(apply tame_for)
       ltac:(first [ apply tame_sync | apply tame_cleanup_trim
                   | tame_leaf ltac:(first [apply HP; exact I | apply HI]) ]).
Qed.

Lemma tame_prep_boot (ipsw blob boardconfig : string) (kpp : bool)
    (identifier : option string) (legacy : bool)
    (extra_ramdisk : option string) (boot_arguments : string) :
  tame P (prep_boot host ipsw blob boardconfig kpp identifier legacy
                    extra_ramdisk boot_arguments).
Proof.
  unfold prep_boot, print_info, print_error, print. cbv zeta. tame_flow.
Qed.

End TameScript.

(** ** Exit status of [main] *)

Lemma dependency_outcome {Manifest : Type} (host : Host Manifest) (w : World) :
  check_for_dependencies host w = (Ret tt, w)
  \/ exists w', check_for_dependencies host w = (Exit 1, w').
Proof.
  destruct (forallb (which host) (program_list host)) eqn:E.
  - left. exact (proj1 (dependencies_checked_in_order host w) E).
  - right. unfold check_for_dependencies, check_for_command.
    revert w. induction (program_list host) as [|p l IH]; intros w;
      [discriminate|].
    simpl in E. simpl for_. unfold bind at 1.
    destruct (which host p); simpl in *.
    + unfold ret at 1. exact (IH E w).
    + eexists. reflexivity.
Qed.

Section Gates.

Context {Manifest : Type}.
Variable host : Host Manifest.

Lemma gate_ret {A} (a : A) : gate (ret a).
Proof. intros w. left. now exists a. Qed.

Lemma gate_os_path_exists (p : string) : gate (os_path_exists host p).
Proof. intros w. left. eexists. reflexivity. Qed.

Lemma gate_check_for_dependencies : gate (check_for_dependencies host).
Proof.
  intros w. destruct (dependency_outcome host w) as [E | E];
    [left; now exists tt | right; exact E].
Qed.

Lemma gate_fail {A} (s : string) :
  gate (bind (print_error s) (fun _ => @sys_exit A 1)).
Proof. intros w. right. eexists. reflexivity. Qed.

Lemma gate_bind {A B} (m : M A) (k : A -> M B) :
  gate m -> (forall a, gate (k a)) -> gate (bind m k).
Proof.
  intros Hm Hk w. unfold bind. destruct (Hm w) as [[a ->] | [w' ->]].
  - exact (Hk a w).
  - right. now exists w'.
Qed.

Lemma status_bind {A B} (Q : World -> Prop) (m : M A) (k : A -> M B) :
  gate m -> (forall a, status Q (k a)) -> status Q (bind m k).
Proof.
  intros Hm Hk w. unfold bind. destruct (Hm w) as [[a ->] | [w' ->]].
  - exact (Hk a w).
  - simpl. now left.
Qed.

(** A flow that only exits with status 1, followed by [sys.exit(0)]. *)
Lemma status_then_exit_0 (flow : M unit) :
  tame (fun _ => True) flow ->
  status (fun w => fst (flow w) = Ret tt)
         (bind flow (fun _ => @sys_exit unit 0)).
Proof.
  intros Ht w. unfold bind. destruct (Ht w) as [_ X].
  destruct (flow w) as [[[] | c | e] w'] eqn:E; simpl in *.
  - right. auto.
  - left. now apply X.
  - exact I.
Qed.

End Gates.

Ltac gate_walk :=
  repeat match goal with
    | |- gate (bind (print_error _) (fun _ => sys_exit 1)) => apply gate_fail
    | |- gate (bind _ _) => apply gate_bind; [|intros ?]
    | |- gate (if ?b then _ else _) => destruct b
    | |- gate (match ?o with _ => _ end) => destruct o
    | |- gate (ret _) => apply gate_ret
    | |- gate (os_path_exists _ _) => apply gate_os_path_exists
    | |- gate (check_for_dependencies _) => apply gate_check_for_dependencies
    end.

(** After the parser, [main] never returns: it ends in [sys.exit] or in an
    exception.  Its exit status is 1, or 0 and then one of the two modes was
    selected and its flow, started from the world [main] was started in, ran
    to its end. *)
Lemma main_exit_status {Manifest : Type} {ops : ManifestOps Manifest}
    (host : Host Manifest) (args : Args) (w : World) :
  let ipsw := realpath host (arg_ipsw args) in
  let blob := realpath host (arg_blob args) in
  let boardconfig := Py.lower (arg_boardconfig args) in
  let extra_ramdisk :=
    if truthy_opt (arg_extra_ramdisk args)
    then option_map (realpath host) (arg_extra_ramdisk args) else None in
  let boot_arguments :=
    match arg_boot_arguments args with
    | Some s => if Py.truthy s then s else EmptyString
    | None => EmptyString
    end in
  let flow :=
    if arg_restore args
    then prep_restore host ipsw blob boardconfig (arg_kpp args)
                      (arg_legacy args) (arg_skip_baseband args) extra_ramdisk
    else prep_boot host ipsw blob boardconfig (arg_kpp args)
                   (arg_identifier args) (arg_legacy args) extra_ramdisk
                   boot_arguments in
  match fst (main host args w) with
  | Ret _ => False
  | Exit c =>
      c = 1%Z
      \/ (c = 0%Z
          /\ (arg_restore args = true \/ arg_boot args = true)
          /\ fst (flow w) = Ret tt)
  | Raise _ => True
  end.
Proof.
  intros ipsw blob boardconfig extra_ramdisk boot_arguments flow.
  cut (status (fun w => (arg_restore args = true \/ arg_boot args = true)
                        /\ fst (flow w) = Ret tt)
              (main host args)); [intros H; exact (H w)|].
  unfold main. cbv zeta.
  fold ipsw blob boardconfig extra_ramdisk boot_arguments.
  subst flow. clearbody ipsw blob boardconfig extra_ramdisk boot_arguments.
  do 7 (apply status_bind; [solve [gate_walk] | intros ?]).
  destruct (arg_restore args).
  - intros w0.
    pose proof (status_then_exit_0 _
                  (tame_prep_restore host _ (fun _ _ => I) ipsw blob
                     boardconfig (arg_kpp args) (arg_legacy args)
                     (arg_skip_baseband args) extra_ramdisk (fun _ => I))
                  w0) as H.
    destruct (fst (bind _ _ w0)) as [|c|]; [exact H | | exact I].
    destruct H as [H | [H1 H2]]; [now left | right; auto].
  - destruct (arg_boot args).
    + intros w0.
      pose proof (status_then_exit_0 _
                    (tame_prep_boot host _ (fun _ _ => I) ipsw blob boardconfig (arg_kpp args)
                       (arg_identifier args) (arg_legacy args) extra_ramdisk
                       boot_arguments) w0) as H.
      destruct (fst (bind _ _ w0)) as [|c|]; [exact H | | exact I].
      destruct H as [H | [H1 H2]]; [now left | right; auto].
    + intros w0. simpl. now left.
Qed.

(** X3.  [main], parser included, never returns: it ends in [sys.exit] or in
    an exception.  For a command line the parser rejects the exit status is
    2, for a request for help it is 0, and for a command line the parser
    accepts it is 1, or 0 and then one of the two modes was selected and its
    flow, started from the world [main] was started in, ran to its end. *)
Theorem exit_status_of_the_script {Manifest : Type} {ops : ManifestOps Manifest}
    (host : Host Manifest) (line : CommandLine) (w : World) :
  match fst (main_of_command_line host line w) with
  | Ret _ => False
  | Exit c =>
      match line with
      | Rejected _ => c = 2%Z
      | HelpAsked _ => c = 0%Z
      | Accepted args =>
          c = 1%Z
          \/ (c = 0%Z
              /\ (arg_restore args = true \/ arg_boot args = true)
              /\ fst (selected_flow host args w) = Ret tt)
      end
  | Raise _ => True
  end.
Proof.
  destruct line as [args | usage | help]; try reflexivity.
  exact (main_exit_status host args w).
Qed.

(** ** The [atexit] hook *)

Section Hooks.

Context {Manifest : Type}.
Variable host : Host Manifest.

Lemma steady_ret {A} (a : A) : steady (ret a).
Proof. intros w. reflexivity. Qed.

Lemma steady_raise {A} (e : string) : steady (@raise A e).
Proof. intros w. reflexivity. Qed.

Lemma steady_sys_exit {A} (c : Z) : steady (@sys_exit A c).
Proof. intros w. reflexivity. Qed.

Lemma steady_emit (e : Event) : steady (emit e).
Proof. intros w. reflexivity. Qed.

Lemma steady_get_log : steady get_log.
Proof. intros w. reflexivity. Qed.

Lemma steady_os_path_exists (p : string) : steady (os_path_exists host p).
Proof. intros w. reflexivity. Qed.

Lemma steady_concat_path (pre : string) (p : option string) :
  steady (concat_path pre p).
Proof. destruct p; intros w; reflexivity. Qed.

Lemma steady_bind {A B} (m : M A) (k : A -> M B) :
  steady m -> (forall a, steady (k a)) -> steady (bind m k).
Proof.
  intros Hm Hk w. unfold bind. pose proof (Hm w) as E.
  destruct (m w) as [[a | c | e] w1]; simpl in *; [|exact E | exact E].
  now rewrite (Hk a w1).
Qed.

Lemma steady_for {A} (xs : list A) (body : A -> M unit) :
  (forall x, steady (body x)) -> steady (for_ xs body).
Proof.
  intros H. induction xs as [|x xs IH]; simpl.
  - apply steady_ret.
  - apply steady_bind; [apply H | intros _; exact IH].
Qed.

Lemma releases_unregister : releases atexit_unregister.
Proof. intros w. reflexivity. Qed.

Lemma releases_bind {A} (m : M A) (k : A -> M unit) :
  steady m -> (forall a, releases (k a)) -> releases (bind m k).
Proof.
  intros Hm Hk w. unfold bind. pose proof (Hm w) as E.
  destruct (m w) as [[a | c | e] w1]; simpl in *; [|exact E | exact E].
  now rewrite (Hk a w1), E.
Qed.

Lemma steady_execute (argv : list string) (ignore_errors : bool) :
  steady (execute host argv ignore_errors).
Proof.
  intros w.
  unfold execute, bind, get_log, emit, print_error, ret, sys_exit, DEBUG.
  simpl.
  destruct (fst (run host (log w) argv) >? 0)%Z; [destruct ignore_errors|];
    reflexivity.
Qed.

End Hooks.

Ltac steady_leaf :=
  first [ apply steady_ret | apply steady_raise | apply steady_sys_exit
        | apply steady_emit | apply steady_get_log
        | apply steady_os_path_exists | apply steady_concat_path
        | apply steady_execute ].

Ltac steady_walk extra :=
  walk ltac:(apply steady_bind) ltac:(apply steady_for)
       ltac:(first [extra | steady_leaf]).

Section HooksOfTheScript.

Context {Manifest : Type} {ops : ManifestOps Manifest}.
Variable host : Host Manifest.

Lemma steady_sync (work : string) : steady (linux_hfsplus_sync host work).
Proof.
  unfold linux_hfsplus_sync, sync_dir, sync_file, print_error.
  steady_walk fail.
Qed.

Lemma steady_cleanup_trim (work suffix : string) :
  steady (cleanup_trim host work suffix).
Proof. unfold cleanup_trim. steady_walk fail. Qed.

Ltac releases_walk :=
  repeat match goal with
    | |- releases atexit_unregister => apply releases_unregister
    | |- releases (bind _ _) =>
        apply releases_bind;
        [ solve [steady_walk ltac:(first [ apply steady_sync
                                         | apply steady_cleanup_trim ])]
        | intros ? ]
    | |- releases (match ?o with _ => _ end) => destruct o
    end.

Lemma hooked_prep_restore (ipsw blob boardconfig : string)
    (kpp legacy skip_baseband : bool) (extra_ramdisk : option string) :
  hooked (mkdtemp host "restore-")
         (prep_restore host ipsw blob boardconfig kpp legacy skip_baseband
                       extra_ramdisk).
Proof.
  intros w. unfold prep_restore. cbv zeta.
  rewrite !bind_emit, bind_atexit_register. cbv beta.
  match goal with
  | |- context [fst (?rest ?w0)] =>
      assert (R : releases rest)
        by (unfold print_info, print_error, print; releases_walk);
      rewrite (R w0)
  end.
  reflexivity.
Qed.

Lemma hooked_prep_boot (ipsw blob boardconfig : string) (kpp : bool)
    (identifier : option string) (legacy : bool)
    (extra_ramdisk : option string) (boot_arguments : string) :
  hooked (mkdtemp host "boot-")
         (prep_boot host ipsw blob boardconfig kpp identifier legacy
                    extra_ramdisk boot_arguments).
Proof.
  intros w. unfold prep_boot. cbv zeta.
  rewrite !bind_emit, bind_atexit_register. cbv beta.
  match goal with
  | |- context [fst (?rest ?w0)] =>
      assert (R : releases rest)
        by (unfold print_info, print_error, print; releases_walk);
      rewrite (R w0)
  end.
  reflexivity.
Qed.

End HooksOfTheScript.

Lemma routine_not_rmtree (e : Event) : routine e -> not_rmtree e.
Proof. destruct e; simpl; auto. Qed.

Lemma rmtrees_app_quiet (l old : list Event) :
  Forall not_rmtree l -> rmtrees (List.app l old) = rmtrees old.
Proof.
  induction 1 as [|e l He _ IH]; simpl; [reflexivity|].
  destruct e; simpl in *; try exact IH. destruct He.
Qed.

(** *** What has been moved when a flow stops *)

Section Moves.

Context {Manifest : Type}.
Variable host : Host Manifest.

Lemma unmoved_bind {A B} (late : Outcome B * World -> Prop) (m : M A)
    (k : A -> M B) :
  tame not_move m -> (forall a, unmoved_or late (k a)) ->
  unmoved_or late (bind m k).
Proof.
  intros Hm Hk w. unfold bind. destruct (Hm w) as [[l1 [E1 F1]] _].
  destruct (m w) as [[a | c | e] w1]; simpl in *.
  - pose proof (Hk a w1) as H.
    destruct (k a w1) as [[b | c | e] w2]; simpl in *; [exact I | |].
    + destruct H as [(l2 & E2 & F2) | H]; [left | now right].
      exists (List.app l2 l1). split; [now rewrite E2, E1, app_assoc|].
      apply Forall_app. now split.
    + destruct H as [(l2 & E2 & F2) | H]; [left | now right].
      exists (List.app l2 l1). split; [now rewrite E2, E1, app_assoc|].
      apply Forall_app. now split.
  - left. now exists l1.
  - left. now exists l1.
Qed.

Lemma image_primitive_not_move (work : string) (e : Event) :
  image_primitive work e -> not_move e.
Proof. destruct e; simpl; auto. Qed.

Lemma tame_sync_not_move (work : string) :
  tame not_move (linux_hfsplus_sync host work).
Proof.
  apply (tame_weaken (image_primitive work)); [apply image_primitive_not_move|].
  apply tame_sync_image.
Qed.

(** The last steps of RestoreFlow, from the move on. *)
Lemma restore_after_move (tmp root done offer line path prompt : string)
    (yes : bool) (command : list string) :
  unmoved_or (fun r => yes = true /\ stopped_after_move tmp root command r)
    (bind (print_info "Moving files") (fun _ =>
     bind (emit (Move tmp root)) (fun _ =>
     bind (print_info done) (fun _ =>
     bind (print_info offer) (fun _ =>
     bind (print line) (fun _ =>
     bind (emit (OpenWrite path)) (fun _ =>
     bind (emit (Write path line)) (fun _ =>
     bind (emit (Input prompt)) (fun _ =>
     bind (if yes then bind (execute host command false) (fun _ => ret tt)
           else ret tt) (fun _ =>
     atexit_unregister)))))))))).
Proof.
  intros w. unfold print_info, print. rewrite !bind_emit. cbv beta.
  destruct yes; [|exact I].
  rewrite bind_assoc.
  match goal with
  | |- context [bind (execute host command false) ?k ?w0] =>
      destruct (Z.le_gt_cases (fst (run host (log w0) command)) 0)
        as [Hok | Hko];
      [ rewrite (bind_execute_ok host command false k w0 Hok)
      | rewrite (bind_execute_fatal host command k w0 Hko) ]
  end.
  - exact I.
  - right. split; [reflexivity|]. split; [reflexivity|].
    exists [Input prompt; Write path line; OpenWrite path; Stdout line;
            Stdout ("[*] Info: " ++ offer); Stdout ("[*] Info: " ++ done)].
    eexists. reflexivity.
Qed.

(** The last steps of BootFlow, from the move on: they all return. *)
Lemma boot_after_move (late : Outcome unit * World -> Prop)
    (tmp root done offer script advice : string) :
  unmoved_or late
    (bind (print_info "Moving files") (fun _ =>
     bind (emit (Move tmp root)) (fun _ =>
     bind (print_info done) (fun _ =>
     bind (print_info offer) (fun _ =>
     bind (print script) (fun _ =>
     bind (print_info advice) (fun _ => atexit_unregister))))))).
Proof. intros w. exact I. Qed.

End Moves.

Ltac not_move_block host :=
  unfold print_info, print_error, print;
  walk ltac:(apply tame_bind) ltac:(apply tame_for)
       ltac:(first [ apply tame_sync_not_move
                   | apply tame_cleanup_trim_removals; intros ?; exact I
                   | tame_leaf ltac:(exact I) ]).

Lemma restore_unmoved {Manifest : Type} {ops : ManifestOps Manifest}
    (host : Host Manifest) (ipsw blob boardconfig : string)
    (kpp legacy skip_baseband : bool) (extra_ramdisk : option string) :
  let work :=
    realpath host (ROOT host ++ "/" ++ Path.basename (mkdtemp host "restore-")) in
  let command :=
    ["futurerestore"; "-t"; blob; "--use-pwndfu"; "--skip-blob"; "--rdsk";
     work ++ "/ramdisk.im4p"; "--rkrn"; work ++ "/krnl.im4p"; "--latest-sep";
     if skip_baseband then "--no-baseband" else "--latest-baseband"; ipsw] in
  let prompt := "Would you like to restore now? [Yy/Nn]: " in
  let yes := String.eqb (input host prompt) "y"
             || String.eqb (input host prompt) "Y" in
  unmoved_or (fun r => yes = true
                        /\ stopped_after_move (mkdtemp host "restore-")
                                              (ROOT host) command r)
    (prep_restore host ipsw blob boardconfig kpp legacy skip_baseband
                  extra_ramdisk).
Proof.
  intros work command prompt yes. subst work command prompt yes.
  unfold prep_restore. cbv zeta.
  repeat match goal with
    | |- unmoved_or _ (bind (print_info "Moving files") _) =>
        apply restore_after_move
    | |- unmoved_or _ (bind _ _) =>
        apply unmoved_bind; [solve [not_move_block host] | intros ?]
    end.
Qed.

Lemma boot_unmoved {Manifest : Type} {ops : ManifestOps Manifest}
    (host : Host Manifest) (ipsw blob boardconfig : string) (kpp : bool)
    (identifier : option string) (legacy : bool)
    (extra_ramdisk : option string) (boot_arguments : string) :
  unmoved_or (fun _ => False)
    (prep_boot host ipsw blob boardconfig kpp identifier legacy extra_ramdisk
               boot_arguments).
Proof.
  unfold prep_boot. cbv zeta.
  repeat match goal with
    | |- unmoved_or _ (bind (print_info "Moving files") _) =>
        apply boot_after_move
    | |- unmoved_or _ (bind _ _) =>
        apply unmoved_bind; [solve [not_move_block host] | intros ?]
    | |- unmoved_or _ (match ?o with _ => _ end) => destruct o
    end.
Qed.


(** ** Pruning, exactly *)

Lemma prune_loop_log {Manifest : Type} (host : Host Manifest)
    (work : string) (l : list string) (w : World) :
  for_ l (fun fn => if Py.startswith fn work && negb DEBUG
                    then emit (Remove fn) else ret tt) w
  = (Ret tt,
     {| log := List.app
                 (map Remove (rev (filter (fun fn => Py.startswith fn work) l)))
                 (log w);
        atexit := atexit w |}).
Proof.
  revert w. induction l as [|fn l IH]; intros w.
  - destruct w; reflexivity.
  - simpl for_. unfold bind at 1. unfold DEBUG. simpl negb.
    rewrite andb_true_r. simpl filter.
    destruct (Py.startswith fn work) eqn:E.
    + unfold emit at 1. rewrite IH. simpl.
      now rewrite map_app, <- app_assoc.
    + unfold ret at 1. exact (IH w).
Qed.

(** X5.  Pruning returns, adds nothing to the log but removals, and removes
    exactly the walked paths whose base name does not end with the suffix
    (and that start with the working directory): a file with the suffix is
    kept, every other walked file is handed to the remove operation. *)
Theorem cleanup_trim_removes_exactly {Manifest : Type} (host : Host Manifest)
    (work suffix : string) (w : World) :
  exists pruned,
    cleanup_trim host work suffix w
    = (Ret tt, {| log := List.app (map Remove pruned) (log w);
                  atexit := atexit w |})
    /\ forall fn,
         In fn pruned <->
         In fn (glob host (work ++ "/**/*"))
         /\ Py.endswith (Path.basename fn) suffix = false
         /\ Py.startswith fn work = true.
Proof.
  eexists. split.
  - unfold cleanup_trim. apply (prune_loop_log host).
  - intros fn. rewrite <- in_rev, filter_In, filter_In, negb_true_iff. tauto.
Qed.

(** ** The permission rule, exactly *)

(** X6.  For the mode of a real file the rule compares octal digits read in
    base ten, which orders modes as their nine permission bits do: the mode
    handed to the set-permissions command is [100755] when the directory
    path ends in [bin], [sbin] or [libexec] and the permission bits are below
    0755, and otherwise the three low octal digits of the captured mode,
    without the setuid, setgid and sticky digit. *)
Theorem chmod_mode_exactly (dirname : string) (st_mode : N) :
  (64 <= st_mode)%N ->
  chmod_mode dirname st_mode
  = Some (if Py.endswith_any dirname ["bin"; "sbin"; "libexec"]
             && (N.land st_mode o777 <? o755)%N
          then "100755"
          else Py.str [ Py.digit_char ((st_mode / 64) mod 8);
                        Py.digit_char ((st_mode / 8) mod 8);
                        Py.digit_char (st_mode mod 8) ]).
Proof.
  intros Hm. destruct (N.ltb_spec (N.land st_mode o777) o755) as [Hlt | Hge].
  - destruct (Py.endswith_any dirname _) eqn:E; simpl andb; cbv iota.
    + now apply chmod_mode_escalates.
    + unfold chmod_mode. rewrite E. now rewrite last3_oct.
  - rewrite andb_false_r.
    rewrite (chmod_mode_keeps_three_digits dirname st_mode Hm Hge).
    now rewrite last3_oct.
Qed.

Lemma chmod_mode_exactly_witness :
  chmod_mode "usr/lib" (Py.of_oct "104644") = Some "644".
Proof.
  refine (chmod_mode_exactly "usr/lib" (Py.of_oct "104644") _).
  vm_compute. discriminate.
Defined.

(** X7.  The directory test is a test on the end of the directory path, not
    on the name of the directory: in any directory whose path ends in the
    letters [bin] or [libexec], whatever comes before them, a real file with
    permission bits below 0755 is given mode [100755]. *)
Theorem directory_test_is_a_suffix_test (before : string) (st_mode : N) :
  (64 <= st_mode)%N ->
  (N.land st_mode o777 < o755)%N ->
  chmod_mode (before ++ "bin") st_mode = Some "100755"
  /\ chmod_mode (before ++ "libexec") st_mode = Some "100755".
Proof.
  intros Hm Hlt. split; apply chmod_mode_escalates; try assumption.
  - unfold Py.endswith_any. simpl existsb.
    now rewrite (endswith_app before "bin").
  - unfold Py.endswith_any. simpl existsb.
    rewrite (endswith_app before "libexec"). now rewrite !orb_true_r.
Qed.

Lemma directory_test_is_a_suffix_test_witness :
  chmod_mode "usr/share/cabin" (Py.of_oct "100644") = Some "100755".
Proof.
  refine (proj1 (directory_test_is_a_suffix_test "usr/share/ca"
                   (Py.of_oct "100644") _ _)).
  - vm_compute. discriminate.
  - vm_compute. reflexivity.
Defined.

(** ** The primitives of the synthesis *)

(** X8.  The image synthesis acts on the target image only: every action it
    adds to the log is an [hfsplus] command on [<work>/ramdisk.dmg] with one of
    the operations [mkdir], [add], [link], [chmod], or a line on standard
    error; it creates, writes, moves or removes nothing itself, and when it
    exits the status is 1. *)
Theorem sync_uses_image_primitives_only {Manifest : Type}
    (host : Host Manifest) (work : string) (w : World) :
  (exists l,
     log (snd (linux_hfsplus_sync host work w)) = List.app l (log w)
     /\ Forall (image_primitive work) l)
  /\ (forall c, fst (linux_hfsplus_sync host work w) = Exit c -> c = 1%Z).
Proof.
  revert w. change (tame (image_primitive work) (linux_hfsplus_sync host work)).
  unfold linux_hfsplus_sync, sync_dir, sync_file, print_error.
  tame_walk ltac:(cbn; tauto).
Qed.

(** ** Fail-stop *)

Section Strict.

Context {Manifest : Type}.
Variable host : Host Manifest.

Lemma split_at_exec {X} (later earlier l2 l1 : list X) (x : X) :
  List.app later (x :: earlier) = List.app l2 l1 ->
  (exists y, l2 = List.app later (x :: y) /\ earlier = List.app y l1)
  \/ (exists z, l1 = List.app z (x :: earlier) /\ later = List.app l2 z).
Proof.
  intros E. apply app_eq_app in E as [l [[E1 E2] | [E1 E2]]].
  - right. exists l. auto.
  - destruct l as [|y l].
    + right. exists []. simpl in *. rewrite app_nil_r in E1.
      split; [now symmetry | now rewrite app_nil_r].
    + injection E2 as <- E2. left. exists l. auto.
Qed.

Lemma strict_silent {A} (m : M A) :
  (forall w, log (snd (m w)) = log w) -> strict host m.
Proof.
  intros H w. exists []. split; [exact (H w)|].
  intros [|e later] argv earlier E; discriminate.
Qed.

Lemma strict_ret {A} (a : A) : strict host (ret a).
Proof. now apply strict_silent. Qed.

Lemma strict_raise {A} (e : string) : strict host (@raise A e).
Proof. now apply strict_silent. Qed.

Lemma strict_sys_exit {A} (c : Z) : strict host (@sys_exit A c).
Proof. now apply strict_silent. Qed.

Lemma strict_atexit_register (d : string) : strict host (atexit_register d).
Proof. now apply strict_silent. Qed.

Lemma strict_atexit_unregister : strict host atexit_unregister.
Proof. now apply strict_silent. Qed.

Lemma strict_concat_path (pre : string) (p : option string) :
  strict host (concat_path pre p).
Proof. destruct p; now apply strict_silent. Qed.

Lemma strict_emit (e : Event) :
  (forall argv, e <> Exec argv) -> strict host (emit e).
Proof.
  intros H w. exists [e]. split; [reflexivity|].
  intros [|x [|y later]] argv earlier E; simpl in E.
  - injection E as -> _. now destruct (H argv).
  - injection E as _ E. discriminate.
  - injection E as _ E. destruct later; discriminate.
Qed.

Lemma strict_execute (argv : list string) :
  strict host (execute host argv false).
Proof.
  intros w.
  destruct (Z.le_gt_cases (fst (run host (log w) argv)) 0) as [Hok | Hko].
  - rewrite (execute_ok host argv false w Hok). exists [Exec argv].
    split; [reflexivity|].
    intros [|x [|y later]] a earlier E F; simpl in E.
    + injection E as <- <-. simpl in F. lia.
    + injection E as _ E. discriminate.
    + injection E as _ E. destruct later; discriminate.
  - rewrite (execute_fatal host argv w Hko).
    exists [Stderr (failure_line argv); Exec argv]. split; [reflexivity|].
    intros [|x [|y [|z later]]] a earlier E F; simpl in E.
    + discriminate.
    + injection E as <- <- <-. split; reflexivity.
    + injection E as _ _ E. discriminate.
    + injection E as _ _ E. destruct later; discriminate.
Qed.

Lemma strict_bind {A B} (m : M A) (k : A -> M B) :
  strict host m -> (forall a, strict host (k a)) -> strict host (bind m k).
Proof.
  intros Hm Hk w. unfold bind. destruct (Hm w) as (l1 & E1 & S1).
  destruct (m w) as [[a | c | e] w1] eqn:Em; simpl in *.
  - destruct (Hk a w1) as (l2 & E2 & S2).
    exists (List.app l2 l1). split; [now rewrite E2, E1, app_assoc|].
    intros later argv earlier E F. symmetry in E.
    apply split_at_exec in E as [(y & -> & ->) | (z & -> & ->)].
    + apply (S2 later argv y eq_refl).
      now rewrite E1, app_assoc.
    + destruct (S1 z argv earlier eq_refl F) as [H _]. discriminate.
  - exists l1. split; [exact E1|].
    intros later argv earlier E F.
    destruct (S1 later argv earlier E F) as [H ->].
    injection H as ->. split; reflexivity.
  - exists l1. split; [exact E1|].
    intros later argv earlier E F.
    destruct (S1 later argv earlier E F) as [H _]. discriminate.
Qed.

Lemma strict_for {A} (xs : list A) (body : A -> M unit) :
  (forall x, strict host (body x)) -> strict host (for_ xs body).
Proof.
  intros H. induction xs as [|x xs IH]; simpl.
  - apply strict_ret.
  - apply strict_bind; [apply H | intros _; exact IH].
Qed.

End Strict.

Ltac strict_leaf :=
  first [ apply strict_ret | apply strict_raise | apply strict_sys_exit
        | apply strict_atexit_register | apply strict_atexit_unregister
        | apply strict_concat_path | apply strict_execute
        | apply strict_emit; intros ?; discriminate ].

Ltac strict_walk :=
  walk ltac:(apply strict_bind) ltac:(apply strict_for) ltac:(strict_leaf).

(** X9.  Outside the image synthesis no command is tolerant: in RestoreFlow
    and in BootFlow run without the synthesis (not on Linux, or without an
    extra ramdisk), a command that exits non-zero is the last one; after it
    come its error line and nothing else, and the flow ends with status 1. *)
Theorem flows_stop_at_first_failed_command {Manifest : Type}
    {ops : ManifestOps Manifest} (host : Host Manifest)
    (ipsw blob boardconfig : string) (kpp : bool) (identifier : option string)
    (legacy skip_baseband : bool) (extra_ramdisk : option string)
    (boot_arguments : string) :
  LINUX host = false \/ truthy_opt extra_ramdisk = false ->
  strict host (prep_restore host ipsw blob boardconfig kpp legacy
                            skip_baseband extra_ramdisk)
  /\ strict host (prep_boot host ipsw blob boardconfig kpp identifier legacy
                            extra_ramdisk boot_arguments).
Proof.
  intros H.
  split.
  - unfold prep_restore, cleanup_trim, print_info, print_error, print.
    cbv zeta.
    destruct H as [HL | Hx].
    + rewrite HL. strict_walk.
    + destruct extra_ramdisk as [extra|]; simpl in Hx; [rewrite Hx|];
        cbn [truthy_opt]; rewrite ?Hx; cbv iota; strict_walk.
  - unfold prep_boot, cleanup_trim, print_info, print_error, print.
    cbv zeta.
    destruct H as [HL | Hx].
    + rewrite HL. strict_walk.
    + destruct extra_ramdisk as [extra|]; simpl in Hx; [rewrite Hx|];
        cbn [truthy_opt]; rewrite ?Hx; cbv iota; strict_walk.
Qed.

Lemma flows_stop_at_first_failed_command_witness :
  strict (Demo.host false (Demo.always 1) Demo.manifest)
         (prep_restore (Demo.host false (Demo.always 1) Demo.manifest)
            "/home/user/fw.ipsw" "/home/user/blob.shsh2" "d321ap" false false
            false None).
Proof.
  refine (proj1 (flows_stop_at_first_failed_command
                   (Demo.host false (Demo.always 1) Demo.manifest)
                   "/home/user/fw.ipsw" "/home/user/blob.shsh2" "d321ap" false
                   None false false None EmptyString _)).
  left. reflexivity.
Defined.

(** ** How the flows end *)

Section Endings.

Context {Manifest : Type}.
Variable host : Host Manifest.

Lemma on_return_bind {A B} (Q : World -> Prop) (m : M A) (k : A -> M B) :
  (forall a, on_return Q (k a)) -> on_return Q (bind m k).
Proof.
  intros Hk w b. unfold bind.
  destruct (m w) as [[a | c | e] w1]; simpl; try discriminate.
  apply Hk.
Qed.

Lemma closes_bind {A B} (P : Event -> Prop) (tail : list Event) (m : M A)
    (k : A -> M B) :
  tame P m -> (forall a, closes P tail (k a)) -> closes P tail (bind m k).
Proof.
  intros Hm Hk w b. unfold bind. destruct (Hm w) as [[l1 [E1 F1]] _].
  destruct (m w) as [[a | c | e] w1]; simpl in *; try discriminate.
  intros Hret. destruct (Hk a w1 b Hret) as (l2 & E2 & F2).
  exists (List.app l2 l1). split.
  - now rewrite E2, E1, <- app_assoc.
  - apply Forall_app. now split.
Qed.

(** The last steps of RestoreFlow: print the command, record it, ask, and
    run it on [y] or [Y]. *)
Lemma restore_closing (P : Event -> Prop) (line path prompt : string)
    (yes : bool) (command : list string) :
  closes P
    (List.app (if yes then [Exec command] else [])
       [Input prompt; Write path line; OpenWrite path; Stdout line])
    (bind (print line) (fun _ =>
     bind (emit (OpenWrite path)) (fun _ =>
     bind (emit (Write path line)) (fun _ =>
     bind (emit (Input prompt)) (fun _ =>
     bind (if yes then bind (execute host command false) (fun _ => ret tt)
           else ret tt) (fun _ =>
     atexit_unregister)))))).
Proof.
  intros w a. unfold print. rewrite !bind_emit. cbv beta.
  destruct yes.
  - rewrite bind_assoc.
    match goal with
    | |- context [bind (execute host command false) ?k ?w0] =>
        destruct (Z.le_gt_cases (fst (run host (log w0) command)) 0)
          as [Hok | Hko];
        [ rewrite (bind_execute_ok host command false k w0 Hok)
        | rewrite (bind_execute_fatal host command k w0 Hko) ]
    end.
    + intros _. exists []. split; [reflexivity | constructor].
    + discriminate.
  - intros _. exists []. split; [reflexivity | constructor].
Qed.

Lemma image_primitive_other_than (work : string) (rest : list string)
    (e : Event) :
  image_primitive work e -> other_than ("futurerestore" :: rest) e.
Proof.
  destruct e as [| |argv| | | | | | | | | |]; simpl; auto.
  destruct argv as [|tool [|image [|op more]]]; try contradiction.
  intros [-> _]. discriminate.
Qed.

Lemma tame_sync_other_than (work : string) (rest : list string) :
  tame (other_than ("futurerestore" :: rest)) (linux_hfsplus_sync host work).
Proof.
  apply (tame_weaken (image_primitive work));
    [apply image_primitive_other_than | apply tame_sync_image].
Qed.

(** The last steps of BootFlow: three lines on standard output. *)
Lemma boot_ending (line1 line2 line3 : string) :
  on_return
    (fun w' => exists earlier,
       log w' = Stdout ("[*] Info: " ++ line3) :: Stdout line2
                :: Stdout ("[*] Info: " ++ line1) :: earlier)
    (bind (print_info line1) (fun _ =>
     bind (print line2) (fun _ =>
     bind (print_info line3) (fun _ => atexit_unregister)))).
Proof. intros w a _. eexists. reflexivity. Qed.

End Endings.

Ltac other_side :=
  cbv beta; unfold other_than;
  repeat match goal with
    | |- context [if ?b then _ else _] => destruct b
    end;
  cbn [List.app];
  first [ exact I | let H := fresh in intros H; discriminate H ].

Ltac other_block :=
  unfold print_info, print_error, print;
  walk ltac:(apply tame_bind) ltac:(apply tame_for)
       ltac:(first [ apply tame_sync_other_than
                   | apply tame_cleanup_trim_removals; intros ?; exact I
                   | tame_leaf other_side ]).

(** X10.  When RestoreFlow returns, the restore command it printed is the
    one it recorded in [restore.command] in the relocated directory, before
    asking; the operator was asked once, and the command was run exactly
    when the answer was [y] or [Y], once and as the last action: no action
    before the printing is a run of that command, a question to the operator
    or the removal of a directory tree.  The command passes [--no-baseband]
    when the baseband is skipped and [--latest-baseband] otherwise. *)
Theorem restore_command_recorded_then_offered {Manifest : Type}
    {ops : ManifestOps Manifest} (host : Host Manifest)
    (ipsw blob boardconfig : string) (kpp legacy skip_baseband : bool)
    (extra_ramdisk : option string) (w : World) (a : unit) :
  fst (prep_restore host ipsw blob boardconfig kpp legacy skip_baseband
                    extra_ramdisk w) = Ret a ->
  let work :=
    realpath host (ROOT host ++ "/" ++ Path.basename (mkdtemp host "restore-")) in
  let command :=
    ["futurerestore"; "-t"; blob; "--use-pwndfu"; "--skip-blob"; "--rdsk";
     work ++ "/ramdisk.im4p"; "--rkrn"; work ++ "/krnl.im4p"; "--latest-sep";
     if skip_baseband then "--no-baseband" else "--latest-baseband"; ipsw] in
  let prompt := "Would you like to restore now? [Yy/Nn]: " in
  let yes := String.eqb (input host prompt) "y"
             || String.eqb (input host prompt) "Y" in
  exists earlier,
    log (snd (prep_restore host ipsw blob boardconfig kpp legacy skip_baseband
                           extra_ramdisk w))
    = List.app (if yes then [Exec command] else [])
        (Input prompt
         :: Write (work ++ "/restore.command") (Py.join " " command)
         :: OpenWrite (work ++ "/restore.command")
         :: Stdout (Py.join " " command) :: List.app earlier (log w))
    /\ Forall (other_than command) earlier.
Proof.
  intros Hret work command prompt yes.
  cut (closes (other_than command)
         (List.app (if yes then [Exec command] else [])
            [Input prompt;
             Write (work ++ "/restore.command") (Py.join " " command);
             OpenWrite (work ++ "/restore.command");
             Stdout (Py.join " " command)])
         (prep_restore host ipsw blob boardconfig kpp legacy skip_baseband
                       extra_ramdisk)).
  { intros H. destruct (H w a Hret) as (earlier & E & F).
    exists earlier. split; [|exact F]. rewrite E. now rewrite <- app_assoc. }
  clear Hret. subst work command prompt yes.
  unfold prep_restore. cbv zeta.
  repeat match goal with
    | |- closes _ _ (bind (print _) _) => apply restore_closing
    | |- closes _ _ (bind _ _) =>
        apply closes_bind; [solve [other_block] | intros ?]
    end.
Qed.

Lemma image_primitive_boot_action {Manifest : Type} (host : Host Manifest)
    (work : string) (e : Event) :
  image_primitive work e -> boot_action host e.
Proof.
  destruct e as [| |argv| | | | | | | | | |]; simpl; auto.
  destruct argv as [|tool [|image [|op more]]]; try contradiction.
  intros [-> _]. left. unfold boot_tools. simpl. tauto.
Qed.

Lemma tame_sync_boot_action {Manifest : Type} (host : Host Manifest)
    (work : string) :
  tame (boot_action host) (linux_hfsplus_sync host work).
Proof.
  apply (tame_weaken (image_primitive work));
    [apply image_primitive_boot_action | apply tame_sync_image].
Qed.

Ltac boot_side :=
  cbv beta;
  repeat match goal with
    | |- context [if ?b then _ else _] => destruct b
    end;
  cbn [boot_action List.app];
  first [ exact I
        | left; solve [unfold boot_tools; cbn [In];
                       repeat first [left; reflexivity | right]]
        | right; split; [reflexivity | eexists; reflexivity] ].

Lemma tame_prep_boot_actions {Manifest : Type} {ops : ManifestOps Manifest}
    (host : Host Manifest) (ipsw blob boardconfig : string) (kpp : bool)
    (identifier : option string) (legacy : bool)
    (extra_ramdisk : option string) (boot_arguments : string) :
  tame (boot_action host)
       (prep_boot host ipsw blob boardconfig kpp identifier legacy
                  extra_ramdisk boot_arguments).
Proof.
  unfold prep_boot, print_info, print_error, print. cbv zeta.
  walk ltac:(apply tame_bind) ltac:(apply tame_for)
       ltac:(first [ apply tame_sync_boot_action
                   | apply tame_cleanup_trim_removals; intros ?; exact I
                   | tame_leaf boot_side ]).
Qed.

(** X11.  BootFlow never asks the operator anything and removes no
    directory tree, and every command it runs has as its program one of
    [img4], [iBoot64Patcher], [img4tool], [Kernel64Patcher], [tar], [hfsplus],
    [hdiutil], or the Python interpreter running the module [pyimg4]: it
    runs neither the restore command nor a boot script.  When it returns,
    the last things it did were to print the path of the boot script,
    [boot.sh] with patch protection and [boot-A10plus.sh] without, and the
    directory to run it from. *)
Theorem boot_flow_runs_its_tools_and_prints_the_script {Manifest : Type}
    {ops : ManifestOps Manifest} (host : Host Manifest)
    (ipsw blob boardconfig : string) (kpp : bool) (identifier : option string)
    (legacy : bool) (extra_ramdisk : option string) (boot_arguments : string)
    (w : World) :
  let r := prep_boot host ipsw blob boardconfig kpp identifier legacy
                     extra_ramdisk boot_arguments w in
  let work :=
    realpath host (ROOT host ++ "/" ++ Path.basename (mkdtemp host "boot-")) in
  (exists l, log (snd r) = List.app l (log w) /\ Forall (boot_action host) l)
  /\ (forall a, fst r = Ret a ->
      exists earlier,
        log (snd r)
        = Stdout ("[*] Info: Make sure to `cd` into " ++ Py.dq ++ work ++ Py.dq
                  ++ " before running!")
          :: Stdout (realpath host (ROOT host) ++ "/scripts/"
                     ++ (if kpp then "boot.sh" else "boot-A10plus.sh"))
          :: Stdout "[*] Info: You can boot the restored device anytime by running the following command with the device in a pwndfu state:"
          :: earlier).
Proof.
  intros r work. subst r. split.
  - exact (proj1 (tame_prep_boot_actions host ipsw blob boardconfig kpp
                    identifier legacy extra_ramdisk boot_arguments w)).
  - revert w.
    change (on_return
      (fun w' => exists earlier,
        log w'
        = Stdout ("[*] Info: " ++ ("Make sure to `cd` into " ++ Py.dq ++ work
                                   ++ Py.dq ++ " before running!"))
          :: Stdout (realpath host (ROOT host) ++ "/scripts/"
                     ++ (if kpp then "boot.sh" else "boot-A10plus.sh"))
          :: Stdout ("[*] Info: " ++ "You can boot the restored device anytime by running the following command with the device in a pwndfu state:")
          :: earlier)
      (prep_boot host ipsw blob boardconfig kpp identifier legacy
                 extra_ramdisk boot_arguments)).
    unfold prep_boot. cbv zeta.
    repeat match goal with
      | |- on_return _ (bind (print_info _)
                             (fun _ => bind (print _) _)) =>
          apply boot_ending
      | |- on_return _ (bind _ _) => apply on_return_bind; intros ?
      | |- on_return _ (match ?o with _ => _ end) => destruct o
      end.
Qed.

(** ** BootFlow: the legacy flag *)

(** X12.  In legacy mode BootFlow never consults the trust cache: two
    bundles whose manifests give the same build version and agree on every
    component other than [StaticTrustCache] make it run identically. *)
Theorem legacy_boot_ignores_trust_cache {Manifest : Type}
    {ops : ManifestOps Manifest} (host : Host Manifest) (m1 m2 : Manifest)
    (ipsw blob boardconfig : string) (kpp : bool) (identifier : option string)
    (extra_ramdisk : option string) (boot_arguments : string) (w : World) :
  getProductBuildVersion m1 = getProductBuildVersion m2 ->
  (forall component, component <> "StaticTrustCache" ->
     get_comp m1 boardconfig component = get_comp m2 boardconfig component) ->
  prep_boot (with_load_manifest host (fun _ => Some m1)) ipsw blob boardconfig
            kpp identifier true extra_ramdisk boot_arguments w
  = prep_boot (with_load_manifest host (fun _ => Some m2)) ipsw blob
              boardconfig kpp identifier true extra_ramdisk boot_arguments w.
Proof.
  intros Hv Hc.
  unfold prep_boot. cbv zeta.
  cbn [load_manifest with_load_manifest mkdtemp negb].
  rewrite !bind_emit, !bind_atexit_register, !bind_print_info, !bind_emit,
    !bind_ret.
  cbv beta iota.
  rewrite Hv.
  rewrite (Hc "iBSS"), (Hc "iBEC"), (Hc "DeviceTree"), (Hc "KernelCache"),
    (Hc "RestoreRamDisk") by discriminate.
  reflexivity.
Qed.

Lemma legacy_boot_ignores_trust_cache_witness :
  prep_boot (with_load_manifest (Demo.host true (Demo.always 0) Demo.manifest)
                                (fun _ => Some Demo.manifest))
            "/home/user/fw.ipsw" "/home/user/blob.shsh2" "d321ap" false
            (Some "iPhone6,1") true None EmptyString initial
  = prep_boot (with_load_manifest (Demo.host true (Demo.always 0) Demo.manifest)
                                  (fun _ => Some Demo.manifest_no_trust_cache))
              "/home/user/fw.ipsw" "/home/user/blob.shsh2" "d321ap" false
              (Some "iPhone6,1") true None EmptyString initial.
Proof.
  refine (legacy_boot_ignores_trust_cache
            (Demo.host true (Demo.always 0) Demo.manifest)
            Demo.manifest Demo.manifest_no_trust_cache
            "/home/user/fw.ipsw" "/home/user/blob.shsh2" "d321ap" false
            (Some "iPhone6,1") None EmptyString initial _ _).
  - reflexivity.
  - intros component H.
    change (assoc component
              [ ("RestoreRamDisk", "090-1111-100.dmg");
                ("RestoreKernelCache", "kernelcache.release.d321");
                ("KernelCache", "kernelcache.release.d321");
                ("iBSS", "Firmware/dfu/iBSS.d321.RELEASE.im4p");
                ("iBEC", "Firmware/dfu/iBEC.d321.RELEASE.im4p");
                ("DeviceTree", "Firmware/all_flash/DeviceTree.d321ap.im4p");
                ("StaticTrustCache", "Firmware/090-1111-100.dmg.trustcache") ]
            = assoc component
                [ ("RestoreRamDisk", "090-1111-100.dmg");
                  ("RestoreKernelCache", "kernelcache.release.d321");
                  ("KernelCache", "kernelcache.release.d321");
                  ("iBSS", "Firmware/dfu/iBSS.d321.RELEASE.im4p");
                  ("iBEC", "Firmware/dfu/iBEC.d321.RELEASE.im4p");
                  ("DeviceTree", "Firmware/all_flash/DeviceTree.d321ap.im4p") ]).
    cbn [assoc].
    destruct (String.eqb component "RestoreRamDisk"); [reflexivity|].
    destruct (String.eqb component "RestoreKernelCache"); [reflexivity|].
    destruct (String.eqb component "KernelCache"); [reflexivity|].
    destruct (String.eqb component "iBSS"); [reflexivity|].
    destruct (String.eqb component "iBEC"); [reflexivity|].
    destruct (String.eqb component "DeviceTree"); [reflexivity|].
    destruct (String.eqb_spec component "StaticTrustCache");
      [contradiction | reflexivity].
Defined.

Lemma restore_command_recorded_then_offered_witness :
  exists earlier,
    log (snd (prep_restore (Demo.host true (Demo.always 0) Demo.manifest)
                "/home/user/fw.ipsw" "/home/user/blob.shsh2" "d321ap" false
                false true None initial))
    = Input "Would you like to restore now? [Yy/Nn]: "
      :: Write "/opt/sunstorm/restore-x/restore.command"
               "futurerestore -t /home/user/blob.shsh2 --use-pwndfu --skip-blob --rdsk /opt/sunstorm/restore-x/ramdisk.im4p --rkrn /opt/sunstorm/restore-x/krnl.im4p --latest-sep --no-baseband /home/user/fw.ipsw"
      :: OpenWrite "/opt/sunstorm/restore-x/restore.command"
      :: Stdout "futurerestore -t /home/user/blob.shsh2 --use-pwndfu --skip-blob --rdsk /opt/sunstorm/restore-x/ramdisk.im4p --rkrn /opt/sunstorm/restore-x/krnl.im4p --latest-sep --no-baseband /home/user/fw.ipsw"
      :: List.app earlier (log initial)
    /\ Forall (other_than
                 ["futurerestore"; "-t"; "/home/user/blob.shsh2"; "--use-pwndfu";
                  "--skip-blob"; "--rdsk"; "/opt/sunstorm/restore-x/ramdisk.im4p";
                  "--rkrn"; "/opt/sunstorm/restore-x/krnl.im4p"; "--latest-sep";
                  "--no-baseband"; "/home/user/fw.ipsw"])
              earlier.
Proof.
  refine (restore_command_recorded_then_offered
            (Demo.host true (Demo.always 0) Demo.manifest)
            "/home/user/fw.ipsw" "/home/user/blob.shsh2" "d321ap" false
            false true None initial tt _).
  vm_compute. reflexivity.
Defined.


Lemma main_rejects_bad_arguments_witness :
  main (Demo.host true (Demo.always 0) Demo.manifest)
       Demo.boot_args_without_identifier initial
  = (Exit 1,
     logged (Stderr "[!] Error: You need to specify an identifier (--identifier)")
            initial).
Proof.
  refine (proj1 (proj2 (proj2 (main_rejects_bad_arguments
                                 (Demo.host true (Demo.always 0) Demo.manifest)
                                 Demo.boot_args_without_identifier initial _)))
            _ _ _ _); reflexivity.
Defined.
